(** * pymaker: the auction-manager client and the exchange order wire format

    A shallow embedding of [contracts/auctions/AuctionManager.py] (the
    classes [AuctionManager], [Auction] and [Auctionlet]) and of the JSON
    wire format of [pymaker.zrx.Order] exercised by [tests/pymaker/test_zrx.py].

    Python code runs against an Ethereum node.  The node, the web3 library
    and the Python runtime are an interface ([Env]); every interaction with
    them is a step of a state-and-exception monad and is recorded in a
    trace, so that "no transaction was submitted" or "the callback ran once
    per log entry" are statements about that trace. *)

From Stdlib Require Import ZArith String DecimalString DecimalZ DecimalPos Lia.
From stdpp Require Import base gmap strings list.

Local Open Scope Z_scope.

(** ** Python values and exceptions *)

Module Py.

(** The outcome of evaluating a Python expression: a value, or a raised
    exception.  Every handler of the embedded code is a bare [except:],
    so the exception carries no payload. *)
Inductive result (A : Type) : Type :=
| Ok (a : A)
| Raised.
Arguments Ok {A} a.
Arguments Raised {A}.

Definition and_then {A B : Type} (r : result A) (k : A -> result B) : result B :=
  match r with
  | Ok a => k a
  | Raised => Raised
  end.

(** [d[k]] on a dictionary: [KeyError] when the key is missing. *)
Definition getitem {V : Type} (d : gmap string V) (k : string) : result V :=
  match d !! k with
  | Some v => Ok v
  | None => Raised
  end.

(** [str(n)] and [int(s)] on integers, in base ten. *)
Definition str (n : Z) : string := NilZero.string_of_int (Z.to_int n).

Definition int (s : string) : result Z :=
  match NilZero.int_of_string s with
  | Some d => Ok (Z.of_int d)
  | None => Raised
  end.

End Py.
Export Py.

Notation "'let?' x ':=' r 'in' k" := (and_then r (fun x => k))
  (at level 10, x pattern, r at level 200, k at level 200).

(** ** Value classes used by the auction client *)

(** Modelled from the spec: [contracts.Address] is not part of the sources;
    it wraps the textual form of an account address, read back through the
    attribute [address] (AuctionManager.py:28). *)
Record Address : Type := mkAddress { address : string }.

(** Modelled from the spec: [contracts.Wad] is not part of the sources; an
    18-decimal fixed-point amount held as an arbitrary-precision integer in
    the attribute [value] (AuctionManager.py:169). *)
Record Wad : Type := mkWad { value : Z }.

(** Modelled from the spec: [contracts.ERC20Token] is not part of the
    sources; a token reference is determined by the address it is bound to. *)
Record ERC20Token : Type := mkERC20Token { token_address : Address }.

(** [datetime.datetime]: a point in time, kept as its Unix timestamp. *)
Record datetime : Type := mkDatetime { timestamp : Z }.

Abbreviation TxHash := string (only parsing).

(** A decoded event log: the hash of the transaction that emitted it and
    the dictionary of its arguments. *)
Record Log : Type := mkLog {
  transactionHash : TxHash;
  args : gmap string Z
}.

(** A transaction receipt, as far as the client reads it.  [logs = None]:
    the subscript [receipt['logs']] raises; [logs = Some None]: the entry is
    [None]; [logs = Some (Some l)]: the entry is the list [l]. *)
Record Receipt : Type := mkReceipt {
  logs : option (option (list Log))
}.

Inductive EventName : Type :=
| LogNewAuction
| LogBid
| LogSplit
| LogAuctionReversal.

(** The tuples returned by [getAuctionInfo] and [getAuctionletInfo],
    indexed from 0 as in the source. *)
Definition AuctionInfo : Type :=
  (string * string * string * Z * Z * Z * Z * Z * bool * bool)%type.

Definition AuctionletInfo : Type :=
  (Z * string * Z * Z * Z * bool * bool)%type.

(** A Python callable registered as a handler or passed as a callback.  The
    client never looks inside it; what is observable is that it was called,
    and with which arguments. *)
Abbreviation Callable := string (only parsing).

(** What the client does to the outside world, in order.  [ETransact] and
    [ECall] record that the client made the request with these arguments,
    whether the node then answers or raises. *)
Inductive Event : Type :=
| EBlockNumber
| ECall (method : string) (arguments : list Z)
| ETransact (method : string) (arguments : list Z)
| EWaitForReceipt (tx_hash : TxHash)
| EPastEvents (name : EventName) (fromBlock : Z)
| EInvoke (f : Callable) (arguments : list Z).

(** The node behind web3 and the library functions the client calls.  Each
    operation may raise and may change the node ([Chain]).

    [_wait_for_receipt] belongs to the base class [contracts.Contract] and
    [pastEvents] to web3; neither is part of the sources, so both are
    operations of the interface: [_wait_for_receipt] returns a receipt or
    raises, [pastEvents] yields the historical log entries matching the
    filter, to each of which web3 applies the callback. *)
Class Env (Chain : Type) : Type := {
  blockNumber : Chain -> result Z * Chain;
  getAuctionInfo : Z -> Chain -> result AuctionInfo * Chain;
  getAuctionletInfo : Z -> Chain -> result AuctionletInfo * Chain;
  isExpired : Z -> Chain -> result bool * Chain;
  transact : string -> list Z -> Chain -> result TxHash * Chain;
  _wait_for_receipt : TxHash -> Chain -> result Receipt * Chain;
  pastEvents : EventName -> Z -> Chain -> result (list Log) * Chain;
  fromtimestamp : Z -> result datetime
}.

(** ** class Auction *)

Module Auction.

Record t : Type := mk {
  auction_id : Z;
  creator : Address;
  selling : ERC20Token;
  buying : ERC20Token;
  start_bid : Wad;
  min_increase : Z;
  min_decrease : Z;
  sell_amount : Wad;
  ttl : Z;
  reversed : bool;
  unsold : bool
}.

(** [Auction.__init__]; the reference [_auction_manager] is the manager
    of the client state, see [AuctionManager.State]. *)
Definition __init__ (auction_id : Z) (auction_info : AuctionInfo) : t :=
  let '(i0, i1, i2, i3, i4, i5, i6, i7, i8, i9) := auction_info in
  {| auction_id := auction_id;
     creator := mkAddress i0;
     selling := mkERC20Token (mkAddress i1);
     buying := mkERC20Token (mkAddress i2);
     start_bid := mkWad i3;
     min_increase := i4;
     min_decrease := i5;
     sell_amount := mkWad i6;
     ttl := i7;
     reversed := i8;
     unsold := i9 |}.

Definition __eq__ (self other : t) : bool :=
  bool_decide (auction_id self = auction_id other).

End Auction.

(** ** class Auctionlet: fields, constructor, equality

    The methods that go through the manager follow the manager, in
    [AuctionletMethods]. *)

Module Auctionlet.

Record t : Type := mk {
  _auction : option Auction.t;
  auctionlet_id : Z;
  auction_id : Z;
  last_bidder : Address;
  last_bid_time : datetime;
  buy_amount : Wad;
  sell_amount : Wad;
  unclaimed : bool;
  base : bool
}.

(** [Auctionlet.__init__].  [datetime.datetime.fromtimestamp] raises on a
    timestamp outside the range of the platform, and then so does the
    constructor. *)
Definition __init__ `{Env Chain} (auctionlet_id : Z)
    (auctionlet_info : AuctionletInfo) : result t :=
  let '(i0, i1, i2, i3, i4, i5, i6) := auctionlet_info in
  match fromtimestamp i2 with
  | Ok time =>
      Ok {| _auction := None;
            auctionlet_id := auctionlet_id;
            auction_id := i0;
            last_bidder := mkAddress i1;
            last_bid_time := time;
            buy_amount := mkWad i3;
            sell_amount := mkWad i4;
            unclaimed := i5;
            base := i6 |}
  | Raised => Raised
  end.

Definition __eq__ (self other : t) : bool :=
  bool_decide (auctionlet_id self = auctionlet_id other).

(** The assignment [self._auction = a]. *)
Definition set_auction (self : t) (a : Auction.t) : t :=
  {| _auction := Some a;
     auctionlet_id := auctionlet_id self;
     auction_id := auction_id self;
     last_bidder := last_bidder self;
     last_bid_time := last_bid_time self;
     buy_amount := buy_amount self;
     sell_amount := sell_amount self;
     unclaimed := unclaimed self;
     base := base self |}.

End Auctionlet.

(** ** class AuctionManager *)

Module AuctionManager.

(** The attributes of a manager object that the client reads after
    construction.  [_contract] and [_web3] are the connection to the
    node, which is the [chain] component of the state below. *)
Record t : Type := mk {
  address : Address;
  is_splitting : bool;
  _our_tx_hashes : gset TxHash;
  _on_new_auction_handler : option Callable;
  _on_bid_handler : option Callable;
  _on_split_handler : option Callable;
  _on_auction_reversal_handler : option Callable
}.

(** The client state: the node, the manager object shared by every
    [Auction] and [Auctionlet] created through it (their attribute
    [_auction_manager] refers to this one object), and the trace. *)
Record State (Chain : Type) : Type := mkState {
  chain : Chain;
  manager : t;
  trace : list Event
}.
Arguments mkState {Chain} _ _ _.
Arguments chain {Chain} _.
Arguments manager {Chain} _.
Arguments trace {Chain} _.

(** Computations over the client state that may raise.  The state
    reached when an exception is raised is kept: effects that happened
    before it are not undone. *)
Definition M (Chain A : Type) : Type := State Chain -> result A * State Chain.

Section Monad.
Context {Chain : Type}.

Definition ret {A} (a : A) : M Chain A := fun s => (Ok a, s).

Definition raise {A} : M Chain A := fun s => (Raised, s).

Definition bind {A B} (m : M Chain A) (k : A -> M Chain B) : M Chain B :=
  fun s =>
    match m s with
    | (Ok a, s') => k a s'
    | (Raised, s') => (Raised, s')
    end.

(** [try: body / except: handler]. *)
Definition try_except {A} (body handler : M Chain A) : M Chain A :=
  fun s =>
    match body s with
    | (Ok a, s') => (Ok a, s')
    | (Raised, s') => handler s'
    end.

Definition lift {A} (r : result A) : M Chain A := fun s => (r, s).

Definition self : M Chain t := fun s => (Ok (manager s), s).

Definition set_manager (m : t) : M Chain unit :=
  fun s => (Ok tt, mkState (chain s) m (trace s)).

(** One interaction with the node, recorded in the trace. *)
Definition node {A} (e : Event) (op : Chain -> result A * Chain) : M Chain A :=
  fun s =>
    let '(r, c) := op (chain s) in
    (r, mkState c (manager s) (trace s ++ [e])).

(** Calling a Python callable.  What the callable does in turn is its
    own business and is not part of the client; the call is recorded. *)
Definition invoke (f : Callable) (arguments : list Z) : M Chain unit :=
  fun s => (Ok tt, mkState (chain s) (manager s) (trace s ++ [EInvoke f arguments])).

(** A [for] loop over a list. *)
Fixpoint for_each {A} (body : A -> M Chain unit) (l : list A) : M Chain unit :=
  match l with
  | [] => ret tt
  | x :: l' => bind (body x) (fun _ => for_each body l')
  end.

End Monad.

Notation "'let!' x ':=' m 'in' k" := (bind m (fun x => k))
  (at level 10, x pattern, m at level 200, k at level 200).

Section Methods.
Context `{Env Chain}.

(** [AuctionManager.__init__]: no transaction of the client is known
    yet and no handler is registered. *)
Definition __init__ (address : Address) (is_splitting : bool) : t :=
  {| address := address;
     is_splitting := is_splitting;
     _our_tx_hashes := ∅;
     _on_new_auction_handler := None;
     _on_bid_handler := None;
     _on_split_handler := None;
     _on_auction_reversal_handler := None |}.

Definition _on_new_auction (log : Log) : M Chain unit :=
  let! this := self in
  if bool_decide (transactionHash log ∉ _our_tx_hashes this) then
    match _on_new_auction_handler this with
    | Some handler =>
        let! base_id := lift (getitem (args log) "base_id") in
        invoke handler [base_id]
    | None => ret tt
    end
  else ret tt.

Definition _on_bid (log : Log) : M Chain unit :=
  let! this := self in
  if bool_decide (transactionHash log ∉ _our_tx_hashes this) then
    match _on_bid_handler this with
    | Some handler =>
        let! auctionlet_id := lift (getitem (args log) "auctionlet_id") in
        invoke handler [auctionlet_id]
    | None => ret tt
    end
  else ret tt.

Definition _on_split (log : Log) : M Chain unit :=
  let! this := self in
  match _on_split_handler this with
  | Some handler =>
      let! base_id := lift (getitem (args log) "base_id") in
      let! new_id := lift (getitem (args log) "new_id") in
      let! split_id := lift (getitem (args log) "split_id") in
      invoke handler [base_id; new_id; split_id]
  | None => ret tt
  end.

Definition _on_auction_reversal (log : Log) : M Chain unit :=
  let! this := self in
  match _on_auction_reversal_handler this with
  | Some handler =>
      let! auction_id := lift (getitem (args log) "auction_id") in
      invoke handler [auction_id]
  | None => ret tt
  end.

(** The subscriptions made by [__init__] (lines 37-40): which method
    receives a log entry of which event. *)
Definition deliver (name : EventName) (log : Log) : M Chain unit :=
  match name with
  | LogNewAuction => _on_new_auction log
  | LogBid => _on_bid log
  | LogSplit => _on_split log
  | LogAuctionReversal => _on_auction_reversal log
  end.

Definition on_new_auction (handler : Callable) : M Chain unit :=
  let! this := self in
  set_manager
    {| address := address this;
       is_splitting := is_splitting this;
       _our_tx_hashes := _our_tx_hashes this;
       _on_new_auction_handler := Some handler;
       _on_bid_handler := _on_bid_handler this;
       _on_split_handler := _on_split_handler this;
       _on_auction_reversal_handler := _on_auction_reversal_handler this |}.

Definition on_bid (handler : Callable) : M Chain unit :=
  let! this := self in
  set_manager
    {| address := address this;
       is_splitting := is_splitting this;
       _our_tx_hashes := _our_tx_hashes this;
       _on_new_auction_handler := _on_new_auction_handler this;
       _on_bid_handler := Some handler;
       _on_split_handler := _on_split_handler this;
       _on_auction_reversal_handler := _on_auction_reversal_handler this |}.

Definition on_split (handler : Callable) : M Chain unit :=
  let! this := self in
  set_manager
    {| address := address this;
       is_splitting := is_splitting this;
       _our_tx_hashes := _our_tx_hashes this;
       _on_new_auction_handler := _on_new_auction_handler this;
       _on_bid_handler := _on_bid_handler this;
       _on_split_handler := Some handler;
       _on_auction_reversal_handler := _on_auction_reversal_handler this |}.

Definition on_auction_reversal (handler : Callable) : M Chain unit :=
  let! this := self in
  set_manager
    {| address := address this;
       is_splitting := is_splitting this;
       _our_tx_hashes := _our_tx_hashes this;
       _on_new_auction_handler := _on_new_auction_handler this;
       _on_bid_handler := _on_bid_handler this;
       _on_split_handler := _on_split_handler this;
       _on_auction_reversal_handler := Some handler |}.

(** [self._contract.pastEvents(name, {'fromBlock': n}, callback)]:
    the node is asked for the matching historical entries and the
    callback is applied to each, in order. *)
Definition contract_pastEvents (name : EventName) (fromBlock : Z)
    (callback : Log -> M Chain unit) : M Chain unit :=
  let! entries := node (EPastEvents name fromBlock) (pastEvents name fromBlock) in
  for_each callback entries.

Definition discover_recent_auctionlets (number_of_historical_blocks : Z)
    (on_auctionlet_discovered : Callable) : M Chain unit :=
  let! current := node EBlockNumber blockNumber in
  let start_block_number := current - number_of_historical_blocks in
  let! _ := contract_pastEvents LogNewAuction start_block_number
         (fun log =>
            let! base_id := lift (getitem (args log) "base_id") in
            invoke on_auctionlet_discovered [base_id]) in
  contract_pastEvents LogSplit start_block_number
    (fun log =>
       let! split_id := lift (getitem (args log) "split_id") in
       invoke on_auctionlet_discovered [split_id]).

Definition get_auction (auction_id : Z) : M Chain Auction.t :=
  let! auction_info := node (ECall "getAuctionInfo" [auction_id]) (getAuctionInfo auction_id) in
  ret (Auction.__init__ auction_id auction_info).

(** The bare [except:] turns every exception of the body into [None]. *)
Definition get_auctionlet (auctionlet_id : Z) : M Chain (option Auctionlet.t) :=
  try_except
    (let! auctionlet_info := node (ECall "getAuctionletInfo" [auctionlet_id])
                             (getAuctionletInfo auctionlet_id) in
     let! auctionlet := lift (Auctionlet.__init__ auctionlet_id auctionlet_info) in
     ret (Some auctionlet))
    (ret None).

Definition _is_auctionlet_expired (auctionlet_id : Z) : M Chain (option bool) :=
  try_except
    (let! expired := node (ECall "isExpired" [auctionlet_id]) (isExpired auctionlet_id) in
     ret (Some expired))
    (ret None).

(** [receipt['logs']]. *)
Definition receipt_getitem_logs (receipt : Receipt) : result (option (list Log)) :=
  match logs receipt with
  | Some v => Ok v
  | None => Raised
  end.

(** [(receipt_logs is not None) and (len(receipt_logs) > 0)]. *)
Definition has_logs (receipt_logs : option (list Log)) : bool :=
  match receipt_logs with
  | Some l => bool_decide (0 < Z.of_nat (length l))
  | None => false
  end.

Definition _claim (auctionlet_id : Z) : M Chain bool :=
  try_except
    (let! tx_hash := node (ETransact "claim" [auctionlet_id]) (transact "claim" [auctionlet_id]) in
     let! receipt := node (EWaitForReceipt tx_hash) (_wait_for_receipt tx_hash) in
     let! receipt_logs := lift (receipt_getitem_logs receipt) in
     ret (has_logs receipt_logs))
    (ret false).

End Methods.

End AuctionManager.

(** ** class Auctionlet: the methods *)

Module AuctionletMethods.
Import AuctionManager.

Section Methods.
Context `{Env Chain}.

Definition is_expired (this : Auctionlet.t) : M Chain (option bool) :=
  _is_auctionlet_expired (Auctionlet.auctionlet_id this).

(** [get_auction] assigns to [self._auction]; the object after the
    call is returned next to the result.  When the fetch raises, the
    assignment is not reached and the exception leaves the method. *)
Definition get_auction (this : Auctionlet.t) : M Chain (Auction.t * Auctionlet.t) :=
  match Auctionlet._auction this with
  | None =>
      let! a := AuctionManager.get_auction (Auctionlet.auction_id this) in
      ret (a, Auctionlet.set_auction this a)
  | Some a => ret (a, this)
  end.

Definition can_split (this : Auctionlet.t) : M Chain bool :=
  let! mgr := self in
  ret (is_splitting mgr).

(** The tail shared by the three submitting branches of [bid]
    (lines 178-180). *)
Definition await_logs (tx_hash : TxHash) : M Chain bool :=
  let! receipt := node (EWaitForReceipt tx_hash) (_wait_for_receipt tx_hash) in
  let! receipt_logs := lift (receipt_getitem_logs receipt) in
  ret (has_logs receipt_logs).

Definition bid (this : Auctionlet.t) (how_much : Wad) (quantity : option Wad)
    : M Chain bool :=
  let id := Auctionlet.auctionlet_id this in
  try_except
    (let! mgr := self in
     match quantity with
     | None =>
         if is_splitting mgr then
           let arguments := [id; value how_much; value (Auctionlet.sell_amount this)] in
           let! tx_hash := node (ETransact "bid" arguments) (transact "bid" arguments) in
           await_logs tx_hash
         else
           let arguments := [id; value how_much] in
           let! tx_hash := node (ETransact "bid" arguments) (transact "bid" arguments) in
           await_logs tx_hash
     | Some quantity =>
         if negb (is_splitting mgr) then
           ret false
         else
           let arguments := [id; value how_much; value quantity] in
           let! tx_hash := node (ETransact "bid" arguments) (transact "bid" arguments) in
           await_logs tx_hash
     end)
    (ret false).

Definition claim (this : Auctionlet.t) : M Chain bool :=
  _claim (Auctionlet.auctionlet_id this).

End Methods.

End AuctionletMethods.

(** ** class Order of pymaker.zrx: the JSON wire format *)

Module Zrx.

(** A JSON value as [json.loads] returns it: [None], a string, an
    integer, or a dictionary. *)
#[warnings="-register-all"]
Inductive json : Type :=
| JNull
| JString (s : string)
| JNumber (n : Z)
| JObject (members : gmap string json).

(** Modelled from the spec: the exchange client an order is bound to
    ([pymaker.zrx.ZrxExchange] is not part of the sources); it exposes the
    address of the contract it talks to. *)
Record ZrxExchange : Type := mkZrxExchange { exchange_address : Address }.

(** Modelled from the spec: [pymaker.zrx.Order] is not part of the sources.
    The fields are those of the data model (spec, section 3), under the
    names the tests give them as keyword arguments of the constructor
    (test_zrx.py:181-196); the signature is three optional fields. *)
Record Order : Type := mkOrder {
  exchange : option ZrxExchange;
  maker : Address;
  taker : Address;
  maker_fee : Wad;
  taker_fee : Wad;
  maker_token_amount : Wad;
  taker_token_amount : Wad;
  maker_token_address : Address;
  taker_token_address : Address;
  salt : Z;
  fee_recipient : Address;
  expiration : Z;
  exchange_contract_address : Address;
  ec_signature_r : option string;
  ec_signature_s : option string;
  ec_signature_v : option Z
}.

(** The data fields of an order: everything but the exchange client. *)
Definition data_fields (o : Order) :=
  (maker o, taker o, maker_fee o, taker_fee o,
   maker_token_amount o, taker_token_amount o,
   maker_token_address o, taker_token_address o,
   salt o, fee_recipient o, expiration o, exchange_contract_address o,
   ec_signature_r o, ec_signature_s o, ec_signature_v o).

#[global] Instance Address_eq_dec : EqDecision Address.
Proof. solve_decision. Defined.

#[global] Instance Wad_eq_dec : EqDecision Wad.
Proof. solve_decision. Defined.

(** Modelled from the spec: equality of orders is structural, field by
    field, and ignores the exchange client reference (section 4.1). *)
Definition __eq__ (self other : Order) : bool :=
  bool_decide (data_fields self = data_fields other).

(** The same order bound to another exchange client. *)
Definition bound_to (exchange : option ZrxExchange) (o : Order) : Order :=
  {| exchange := exchange;
     maker := maker o;
     taker := taker o;
     maker_fee := maker_fee o;
     taker_fee := taker_fee o;
     maker_token_amount := maker_token_amount o;
     taker_token_amount := taker_token_amount o;
     maker_token_address := maker_token_address o;
     taker_token_address := taker_token_address o;
     salt := salt o;
     fee_recipient := fee_recipient o;
     expiration := expiration o;
     exchange_contract_address := exchange_contract_address o;
     ec_signature_r := ec_signature_r o;
     ec_signature_s := ec_signature_s o;
     ec_signature_v := ec_signature_v o |}.

(** An optional string, and an optional integer, as a JSON value. *)
Definition json_of_string (v : option string) : json :=
  match v with
  | Some s => JString s
  | None => JNull
  end.

Definition json_of_number (v : option Z) : json :=
  match v with
  | Some n => JNumber n
  | None => JNull
  end.

(** Modelled from the spec: [Order.to_json_without_fees] is not part of
    the sources.  The wire format of section 6 without [feeRecipient],
    [makerFee], [takerFee] and [ecSignature]; addresses as their text,
    integers and amounts as base-ten strings (test_zrx.py:339-349). *)
Definition to_json_without_fees (self : Order) : gmap string json :=
  list_to_map
    [ ("exchangeContractAddress", JString (address (exchange_contract_address self)));
      ("maker", JString (address (maker self)));
      ("taker", JString (address (taker self)));
      ("makerTokenAddress", JString (address (maker_token_address self)));
      ("takerTokenAddress", JString (address (taker_token_address self)));
      ("makerTokenAmount", JString (str (value (maker_token_amount self))));
      ("takerTokenAmount", JString (str (value (taker_token_amount self))));
      ("expirationUnixTimestampSec", JString (str (expiration self)));
      ("salt", JString (str (salt self))) ].

(** Modelled from the spec: [Order.to_json] is not part of the sources.
    The fixed key set of section 6; the signature block is always there,
    with [None] for a component the order does not have
    (test_zrx.py:374-392). *)
Definition to_json (self : Order) : gmap string json :=
  list_to_map
    [ ("exchangeContractAddress", JString (address (exchange_contract_address self)));
      ("maker", JString (address (maker self)));
      ("taker", JString (address (taker self)));
      ("makerTokenAddress", JString (address (maker_token_address self)));
      ("takerTokenAddress", JString (address (taker_token_address self)));
      ("feeRecipient", JString (address (fee_recipient self)));
      ("makerTokenAmount", JString (str (value (maker_token_amount self))));
      ("takerTokenAmount", JString (str (value (taker_token_amount self))));
      ("makerFee", JString (str (value (maker_fee self))));
      ("takerFee", JString (str (value (taker_fee self))));
      ("expirationUnixTimestampSec", JString (str (expiration self)));
      ("salt", JString (str (salt self)));
      ("ecSignature",
       JObject (list_to_map
                  [ ("r", json_of_string (ec_signature_r self));
                    ("s", json_of_string (ec_signature_s self));
                    ("v", json_of_number (ec_signature_v self)) ])) ].

(** Reading one entry of the wire format. *)
Definition address_field (data : gmap string json) (key : string) : result Address :=
  match getitem data key with
  | Ok (JString s) => Ok (mkAddress s)
  | _ => Raised
  end.

(** [int(data[key])]: a base-ten string, or a number as it is. *)
Definition int_field (data : gmap string json) (key : string) : result Z :=
  match getitem data key with
  | Ok (JString s) => int s
  | Ok (JNumber n) => Ok n
  | _ => Raised
  end.

Definition optional_string_field (data : gmap string json) (key : string)
    : result (option string) :=
  match getitem data key with
  | Ok (JString s) => Ok (Some s)
  | Ok JNull => Ok None
  | _ => Raised
  end.

Definition optional_number_field (data : gmap string json) (key : string)
    : result (option Z) :=
  match getitem data key with
  | Ok (JNumber n) => Ok (Some n)
  | Ok JNull => Ok None
  | _ => Raised
  end.

(** The signature block: absent as a whole, the order has no signature;
    present, all of [r], [s] and [v] are read from it, and a missing one
    is an error (section 7). *)
Definition signature_fields (data : gmap string json)
    : result (option string * option string * option Z) :=
  match data !! "ecSignature" with
  | None => Ok (None, None, None)
  | Some (JObject signature) =>
      let? r := optional_string_field signature "r" in
      let? s := optional_string_field signature "s" in
      let? v := optional_number_field signature "v" in
      Ok (r, s, v)
  | Some _ => Raised
  end.

(** Modelled from the spec: [Order.from_json] is not part of the sources.
    It parses the wire format of section 6; a missing or ill-typed entry
    raises (test_zrx.py:259-276 and 297-314). *)
Definition from_json (exchange : option ZrxExchange) (data : gmap string json)
    : result Order :=
  let? maker := address_field data "maker" in
  let? taker := address_field data "taker" in
  let? maker_fee := int_field data "makerFee" in
  let? taker_fee := int_field data "takerFee" in
  let? maker_token_amount := int_field data "makerTokenAmount" in
  let? taker_token_amount := int_field data "takerTokenAmount" in
  let? maker_token_address := address_field data "makerTokenAddress" in
  let? taker_token_address := address_field data "takerTokenAddress" in
  let? salt := int_field data "salt" in
  let? fee_recipient := address_field data "feeRecipient" in
  let? expiration := int_field data "expirationUnixTimestampSec" in
  let? exchange_contract_address := address_field data "exchangeContractAddress" in
  let? (r, s, v) := signature_fields data in
  Ok {| exchange := exchange;
        maker := maker;
        taker := taker;
        maker_fee := mkWad maker_fee;
        taker_fee := mkWad taker_fee;
        maker_token_amount := mkWad maker_token_amount;
        taker_token_amount := mkWad taker_token_amount;
        maker_token_address := maker_token_address;
        taker_token_address := taker_token_address;
        salt := salt;
        fee_recipient := fee_recipient;
        expiration := expiration;
        exchange_contract_address := exchange_contract_address;
        ec_signature_r := r;
        ec_signature_s := s;
        ec_signature_v := v |}.

(** [Wad.from_number(n)] for an integer [n]: [n] units of 10^18. *)
Definition Wad_from_number (n : Z) : Wad := mkWad (n * 10 ^ 18).

(** The order of the serialisation tests (test_zrx.py:318-333 and
    353-368), with and without its signature. *)
Definition test_order : Order :=
  {| exchange := None;
     maker := mkAddress "0x9e56625509c2f60af937f23b7b532600390e8c8b";
     taker := mkAddress "0x0000000000000000000000000000000000000000";
     maker_fee := Wad_from_number 123;
     taker_fee := Wad_from_number 456;
     maker_token_amount := mkWad 10000000000000000;
     taker_token_amount := mkWad 20000000000000000;
     maker_token_address := mkAddress "0x323b5d4c32345ced77393b3530b1eed0f346429d";
     taker_token_address := mkAddress "0xef7fff64389b814a946f3e92105513705ca6b990";
     salt := 67006738228878699843088602623665307406148487219438534730168799356281242528500;
     fee_recipient := mkAddress "0x6666666666666666666666666666666666666666";
     expiration := 42;
     exchange_contract_address := mkAddress "0x12459c951127e0c374ff9105dda097662a027093";
     ec_signature_r :=
       Some "0xde21c90d3db3abdc8bdc5fafb1f5432a1dede4d621508e7d96fb2ebc15d7eb2f";
     ec_signature_s :=
       Some "0x74f3cb421f75727b78ae98157ddce6a77b46c8714f5848d70f6da083527e1719";
     ec_signature_v := Some 28 |}.

(** The unsigned JSON order of test_zrx.py:280-294. *)
Definition unsigned_json_order : gmap string json :=
  list_to_map
    [ ("orderHash",
       JString "0x02266a4887256fdf16b47ca13e3f2cca76f93724842f3f7ddf55d92fb6601b6f");
      ("exchangeContractAddress", JString "0x12459c951127e0c374ff9105dda097662a027093");
      ("maker", JString "0x0046cac6668bef45b517a1b816a762f4f8add2a9");
      ("taker", JString "0x0000000000000000000000000000000000000000");
      ("makerTokenAddress", JString "0x59adcf176ed2f6788a41b8ea4c4904518e62b6a4");
      ("takerTokenAddress", JString "0x2956356cd2a2bf3202f771f50d3d14a367b48070");
      ("feeRecipient", JString "0xa258b39954cef5cb142fd567a46cddb31a670124");
      ("makerTokenAmount", JString "11000000000000000000");
      ("takerTokenAmount", JString "30800000000000000");
      ("makerFee", JString "0");
      ("takerFee", JString "0");
      ("expirationUnixTimestampSec", JString "1511988904");
      ("salt",
       JString "50626048444772008084444062440502087868712695090943879708059561407114509847312") ].

End Zrx.

(** ** A scripted node

    A small deterministic node on which the client can be run: the chain
    is the list of transactions sent so far; auctionlet 7 of auction 1 is
    live, every other identifier reverts; every transaction is mined under
    a hash derived from its position and emits one log entry. *)

Module TestNode.

Definition Chain : Type := list (string * list Z).

Definition hash_of (c : Chain) : TxHash :=
  String.append "0x" (str (Z.of_nat (length c))).

Definition new_auction_log (base_id : Z) : Log :=
  mkLog "0xa0" {[ "base_id" := base_id ]}.

Definition split_log (base_id new_id split_id : Z) : Log :=
  mkLog "0xb0" (<["base_id" := base_id]> (<["new_id" := new_id]> {[ "split_id" := split_id ]})).

Definition bid_log (tx_hash : TxHash) (auctionlet_id : Z) : Log :=
  mkLog tx_hash {[ "auctionlet_id" := auctionlet_id ]}.

#[global] Instance env : Env Chain := {|
  blockNumber := fun c => (Ok 1000, c);
  getAuctionInfo := fun id c =>
    (if bool_decide (id = 1)
     then Ok ("0x01", "0x02", "0x03", 5, 1, 2, 100, 3600, false, false)
     else Raised, c);
  getAuctionletInfo := fun id c =>
    (if bool_decide (id = 7)
     then Ok (1, "0x04", 1500000000, 10, 100, true, true)
     else Raised, c);
  isExpired := fun id c => (if bool_decide (id = 7) then Ok false else Raised, c);
  transact := fun method arguments c => (Ok (hash_of c), c ++ [(method, arguments)]);
  _wait_for_receipt := fun tx_hash c =>
    (Ok (mkReceipt (Some (Some [bid_log tx_hash 7]))), c);
  pastEvents := fun name fromBlock c =>
    (match name with
     | LogNewAuction => Ok [new_auction_log 7; new_auction_log 8]
     | LogSplit => Ok [split_log 7 9 10]
     | _ => Ok []
     end, c);
  fromtimestamp := fun t =>
    if bool_decide (0 <= t <= 253402300799) then Ok (mkDatetime t) else Raised
|}.

Definition start (is_splitting : bool) : AuctionManager.State Chain :=
  AuctionManager.mkState [] (AuctionManager.__init__ (mkAddress "0xaa") is_splitting) [].

Definition auctionlet7 : Auctionlet.t :=
  {| Auctionlet._auction := None;
     Auctionlet.auctionlet_id := 7;
     Auctionlet.auction_id := 1;
     Auctionlet.last_bidder := mkAddress "0x04";
     Auctionlet.last_bid_time := mkDatetime 1500000000;
     Auctionlet.buy_amount := mkWad 10;
     Auctionlet.sell_amount := mkWad 100;
     Auctionlet.unclaimed := true;
     Auctionlet.base := true |}.

(** An auctionlet object kept by the client after the contract dropped
    it: every call about identifier 8 reverts. *)
Definition auctionlet8 : Auctionlet.t :=
  {| Auctionlet._auction := None;
     Auctionlet.auctionlet_id := 8;
     Auctionlet.auction_id := 1;
     Auctionlet.last_bidder := mkAddress "0x05";
     Auctionlet.last_bid_time := mkDatetime 1500000100;
     Auctionlet.buy_amount := mkWad 11;
     Auctionlet.sell_amount := mkWad 50;
     Auctionlet.unclaimed := false;
     Auctionlet.base := true |}.

End TestNode.

(** ** What a trace says *)

(** The transactions submitted in a trace, oldest first. *)
Definition submitted (tr : list Event) : list (string * list Z) :=
  omap (fun e => match e with ETransact m a => Some (m, a) | _ => None end) tr.

(** The contract calls issued in a trace. *)
Definition called (tr : list Event) : list (string * list Z) :=
  omap (fun e => match e with ECall m a => Some (m, a) | _ => None end) tr.

(** The invocations of the callable [f] in a trace, by argument list. *)
Definition invocations (f : Callable) (tr : list Event) : list (list Z) :=
  omap (fun e => match e with
                 | EInvoke g a => if bool_decide (g = f) then Some a else None
                 | _ => None
                 end) tr.

(** The values stored under [key] in the arguments of the log entries. *)
Definition arg_values (key : string) (entries : list Log) : list Z :=
  omap (fun log => args log !! key) entries.

(** [n] successive calls of [get_auction] on one object. *)
Fixpoint get_auction_times `{Env Chain} (n : nat) (this : Auctionlet.t)
    : AuctionManager.M Chain (list Auction.t * Auctionlet.t) :=
  match n with
  | O => AuctionManager.ret ([], this)
  | S n' =>
      AuctionManager.bind (AuctionletMethods.get_auction this) (fun '(a, this') =>
      AuctionManager.bind (get_auction_times n' this') (fun '(l, this'') =>
      AuctionManager.ret (a :: l, this'')))
  end.

(** ** The client as a whole: registrations, deliveries and calls in sequence *)

Module Client.
Import AuctionManager AuctionletMethods.

(** The registration method of each event (lines 60-70). *)
Definition register `{Env Chain} (name : EventName) (handler : Callable) : M Chain unit :=
  match name with
  | LogNewAuction => on_new_auction handler
  | LogBid => on_bid handler
  | LogSplit => on_split handler
  | LogAuctionReversal => on_auction_reversal handler
  end.

(** The handler slot that the receiving method of each event reads. *)
Definition handler_slot (name : EventName) (mgr : AuctionManager.t) : option Callable :=
  match name with
  | LogNewAuction => _on_new_auction_handler mgr
  | LogBid => _on_bid_handler mgr
  | LogSplit => _on_split_handler mgr
  | LogAuctionReversal => _on_auction_reversal_handler mgr
  end.

(** The arguments of an entry that the receiving method passes on, in the
    order in which it reads them (lines 45, 50, 54, 58). *)
Definition passed_keys (name : EventName) : list string :=
  match name with
  | LogNewAuction => ["base_id"]
  | LogBid => ["auctionlet_id"]
  | LogSplit => ["base_id"; "new_id"; "split_id"]
  | LogAuctionReversal => ["auction_id"]
  end.

(** Whether the receiving method of the event consults [_our_tx_hashes]
    (lines 43 and 48: new auctions and bids only). *)
Definition filtered_by_origin (name : EventName) : bool :=
  match name with
  | LogNewAuction | LogBid => true
  | LogSplit | LogAuctionReversal => false
  end.

(** The arguments of the transaction that [bid] sends, when it sends one
    (lines 167-176). *)
Definition bid_arguments (is_splitting : bool) (this : Auctionlet.t) (how_much : Wad)
    (quantity : option Wad) : option (list Z) :=
  let id := Auctionlet.auctionlet_id this in
  match quantity, is_splitting with
  | None, true => Some [id; value how_much; value (Auctionlet.sell_amount this)]
  | None, false => Some [id; value how_much]
  | Some q, true => Some [id; value how_much; value q]
  | Some _, false => None
  end.

(** The values under [key] of the entries that precede the first entry
    without that key. *)
Fixpoint replayed (key : string) (entries : list Log) : list Z :=
  match entries with
  | [] => []
  | log :: rest =>
      match args log !! key with
      | Some i => i :: replayed key rest
      | None => []
      end
  end.

(** Whether every entry has a value under [key]. *)
Definition all_have (key : string) (entries : list Log) : bool :=
  forallb (fun log => bool_decide (is_Some (args log !! key))) entries.

(** [n] successive calls of [is_expired] on one object; an answer of
    [None] does not stop the sequence. *)
Fixpoint is_expired_times `{Env Chain} (n : nat) (this : Auctionlet.t)
    : M Chain (list (option bool)) :=
  match n with
  | O => ret []
  | S n' =>
      let! answer := is_expired this in
      let! answers := is_expired_times n' this in
      ret (answer :: answers)
  end.

(** The part of the manager object fixed at construction, together with
    the set of the client's own transaction hashes. *)
Definition fixed_part (mgr : AuctionManager.t) : Address * bool * gset string :=
  (AuctionManager.address mgr, is_splitting mgr, _our_tx_hashes mgr).

(** One use of the client by its owner or by the subscription feed. *)
Inductive Op : Type :=
| Register (name : EventName) (handler : Callable)
| Deliver (name : EventName) (log : Log)
| Discover (number_of_historical_blocks : Z) (on_auctionlet_discovered : Callable)
| GetAuction (auction_id : Z)
| GetAuctionlet (auctionlet_id : Z)
| IsExpired (auctionlet : Auctionlet.t)
| GetParentAuction (auctionlet : Auctionlet.t)
| CanSplit (auctionlet : Auctionlet.t)
| Bid (auctionlet : Auctionlet.t) (how_much : Wad) (quantity : option Wad)
| Claim (auctionlet : Auctionlet.t).

(** The state after one use; an exception that leaves the method is
    caught by the caller and the client goes on from the state reached. *)
Definition perform `{Env Chain} (op : Op) (s : State Chain) : State Chain :=
  match op with
  | Register name handler => snd (register name handler s)
  | Deliver name log => snd (deliver name log s)
  | Discover n f => snd (discover_recent_auctionlets n f s)
  | GetAuction id => snd (AuctionManager.get_auction id s)
  | GetAuctionlet id => snd (get_auctionlet id s)
  | IsExpired a => snd (is_expired a s)
  | GetParentAuction a => snd (AuctionletMethods.get_auction a s)
  | CanSplit a => snd (can_split a s)
  | Bid a how_much quantity => snd (bid a how_much quantity s)
  | Claim a => snd (claim a s)
  end.

Definition run `{Env Chain} (ops : list Op) (s : State Chain) : State Chain :=
  fold_left (fun s op => perform op s) ops s.

End Client.

(** ** A node that fails at first

    The chain counts the requests served.  [getAuctionInfo] reverts on the
    first request and answers afterwards, and the amounts it and
    [getAuctionletInfo] report grow with every request; the replayed
    new-auction entries contain one without [base_id]; transactions cannot
    be sent. *)

Module FlakyNode.

Definition Chain : Type := nat.

Definition malformed_log : Log := mkLog "0xc0" {[ "id" := 5 ]}.

#[global] Instance env : Env Chain := {|
  blockNumber := fun c => (Ok 50, S c);
  getAuctionInfo := fun id c =>
    (match c with
     | O => Raised
     | S _ => Ok ("0x01", "0x02", "0x03", 5, 1, 2, Z.of_nat c, 3600, false, false)
     end, S c);
  getAuctionletInfo := fun id c =>
    (Ok (id + 1, "0x04", 1500000000, 10 + Z.of_nat c, 100, true, true), S c);
  isExpired := fun id c => (if Nat.even c then Ok true else Raised, S c);
  transact := fun method arguments c => (Raised, S c);
  _wait_for_receipt := fun tx_hash c => (Raised, S c);
  pastEvents := fun name fromBlock c =>
    (match name with
     | LogNewAuction =>
         Ok [TestNode.new_auction_log 7; malformed_log; TestNode.new_auction_log 8]
     | _ => Ok [TestNode.split_log 7 9 10]
     end, S c);
  fromtimestamp := fun t => Ok (mkDatetime t)
|}.

Definition start : AuctionManager.State Chain :=
  AuctionManager.mkState O (AuctionManager.__init__ (mkAddress "0xbb") true) [].

End FlakyNode.

(** ** A node whose contract reports a timestamp far in the future

    [getAuctionletInfo] answers for every identifier, with a last-bid
    time of 10^18 seconds; [fromtimestamp] accepts what [datetime] can
    represent, up to the end of the year 9999, as on [TestNode]. *)

Module LateNode.

Definition Chain : Type := unit.

#[global] Instance env : Env Chain := {|
  blockNumber := fun c => (Ok 1000, c);
  getAuctionInfo := fun id c => (Raised, c);
  getAuctionletInfo := fun id c =>
    (Ok (1, "0x04", 1000000000000000000, 10, 100, true, true), c);
  isExpired := fun id c => (Ok false, c);
  transact := fun method arguments c => (Raised, c);
  _wait_for_receipt := fun tx_hash c => (Raised, c);
  pastEvents := fun name fromBlock c => (Ok [], c);
  fromtimestamp := fun t =>
    if bool_decide (0 <= t <= 253402300799) then Ok (mkDatetime t) else Raised
|}.

Definition start : AuctionManager.State Chain :=
  AuctionManager.mkState tt (AuctionManager.__init__ (mkAddress "0xcc") false) [].

End LateNode.

(** A manager that knows the hash ["0x0"] as its own and has a handler
    in every slot. *)
Definition knowing_manager : AuctionManager.t :=
  AuctionManager.mk (mkAddress "0xaa") true {[ "0x0" ]}
    (Some "on_new") (Some "on_bid") (Some "on_split") (Some "on_reversal").

(** * Properties of the auction-manager client *)

Import AuctionManager AuctionletMethods.

Ltac run_node :=
  unfold node, bind, ret, lift, self, raise; simpl.

Section TraceFacts.

Lemma submitted_app (tr1 tr2 : list Event) :
  submitted (tr1 ++ tr2) = submitted tr1 ++ submitted tr2.
Proof. apply omap_app. Qed.

Lemma called_app (tr1 tr2 : list Event) :
  called (tr1 ++ tr2) = called tr1 ++ called tr2.
Proof. apply omap_app. Qed.

Lemma invocations_app (f : Callable) (tr1 tr2 : list Event) :
  invocations f (tr1 ++ tr2) = invocations f tr1 ++ invocations f tr2.
Proof. apply omap_app. Qed.

Lemma has_logs_true (receipt_logs : option (list Log)) :
  has_logs receipt_logs = true <-> exists l, receipt_logs = Some l /\ l <> [].
Proof.
  destruct receipt_logs as [l|]; simpl.
  - rewrite bool_decide_eq_true. split.
    + intros Hlen. exists l. split; [reflexivity|].
      intros ->. simpl in Hlen. lia.
    + intros (l' & Heq & Hne). injection Heq as <-.
      destruct l; [congruence | simpl; lia].
  - split; [discriminate | intros (l & Heq & _); discriminate].
Qed.

End TraceFacts.

Section Waiting.
Context `{Env Chain}.

(** Waiting for a receipt never raises past [bid]'s handler, sends
    nothing and leaves the manager object alone. *)
Lemma await_logs_effect (tx_hash : TxHash) (s : State Chain) :
  let s' := snd (await_logs tx_hash s) in
  trace s' = trace s ++ [EWaitForReceipt tx_hash] /\ manager s' = manager s.
Proof.
  unfold await_logs. run_node.
  destruct (_wait_for_receipt tx_hash (chain s)) as [[receipt|] c]; simpl; [|done].
  destruct (receipt_getitem_logs receipt); simpl; done.
Qed.

Lemma await_logs_true (tx_hash : TxHash) (s : State Chain) :
  fst (await_logs tx_hash s) = Ok true <->
  exists receipt c l,
    _wait_for_receipt tx_hash (chain s) = (Ok receipt, c)
    /\ logs receipt = Some (Some l) /\ l <> [].
Proof.
  unfold await_logs. run_node.
  destruct (_wait_for_receipt tx_hash (chain s)) as [[receipt|] c] eqn:Hw; simpl.
  - unfold receipt_getitem_logs.
    destruct (logs receipt) as [v|] eqn:Hl; simpl.
    + split.
      * intros Hb. injection Hb as Hb. apply has_logs_true in Hb as (l & -> & Hne).
        by exists receipt, c, l.
      * intros (r' & c' & l & Heq & Hl' & Hne). injection Heq as <- <-.
        rewrite Hl in Hl'. injection Hl' as ->.
        f_equal. apply has_logs_true. by exists l.
    + split; [discriminate|].
      intros (r' & c' & l & Heq & Hl' & _). injection Heq as <- <-. congruence.
  - split; [discriminate|]. intros (r' & c' & l & Heq & _). discriminate.
Qed.

End Waiting.

Section Bidding.
Context `{Env Chain}.

(** C1. On a manager that does not split, [bid] with a quantity returns
    [False] at once: the state is the one before the call, so nothing was
    sent to the contract and nothing was waited for. *)
Theorem bid_quantity_on_non_splitting_rejected
    (this : Auctionlet.t) (how_much quantity : Wad) (s : State Chain) :
  is_splitting (manager s) = false ->
  bid this how_much (Some quantity) s = (Ok false, s).
Proof.
  intros Hns. unfold bid, try_except. run_node. by rewrite Hns.
Qed.

(** What one submitting branch of [bid] leaves in the trace. *)
Lemma submit_then_await (arguments : list Z) (s : State Chain) :
  let s' := snd (try_except
                   (let! tx_hash := node (ETransact "bid" arguments)
                                         (transact "bid" arguments) in
                    await_logs tx_hash)
                   (ret false) s) in
  submitted (trace s') = submitted (trace s) ++ [("bid", arguments)].
Proof.
  unfold try_except. run_node.
  destruct (transact "bid" arguments (chain s)) as [[tx_hash|] c]; simpl.
  - set (s1 := mkState c (manager s) (trace s ++ [ETransact "bid" arguments])).
    pose proof (await_logs_effect tx_hash s1) as [Htr _].
    destruct (await_logs tx_hash s1) as [[b|] s2]; simpl in *;
      rewrite Htr, !submitted_app; simpl; by rewrite app_nil_r.
  - by rewrite submitted_app.
Qed.


(** [bid] and [claim] never touch the manager object: in particular the
    hash of the transaction they send is not added to [_our_tx_hashes]
    (line 177 is commented out). *)
Lemma bid_leaves_manager
    (this : Auctionlet.t) (how_much : Wad) (quantity : option Wad) (s : State Chain) :
  manager (snd (bid this how_much quantity s)) = manager s.
Proof.
  assert (Hbranch : forall arguments,
    manager (snd (try_except
                   (let! tx_hash := node (ETransact "bid" arguments)
                                         (transact "bid" arguments) in
                    await_logs tx_hash)
                   (ret false) s)) = manager s).
  { intros arguments. unfold try_except. run_node.
    destruct (transact "bid" arguments (chain s)) as [[tx_hash|] c]; simpl; [|done].
    set (s1 := mkState c (manager s) _).
    pose proof (await_logs_effect tx_hash s1) as [_ Hm].
    destruct (await_logs tx_hash s1) as [[b|] s2]; simpl in *; by rewrite Hm. }
  unfold bid. unfold try_except in *. revert Hbranch. run_node. intros Hbranch.
  destruct quantity as [q|], (is_splitting (manager s)); simpl; try done; apply Hbranch.
Qed.

Lemma claim_leaves_manager (this : Auctionlet.t) (s : State Chain) :
  manager (snd (claim this s)) = manager s.
Proof.
  unfold claim, _claim, try_except. run_node.
  destruct (transact "claim" _ (chain s)) as [[tx_hash|] c]; simpl; [|done].
  destruct (_wait_for_receipt tx_hash c) as [[receipt|] c']; simpl; [|done].
  by destruct (receipt_getitem_logs receipt).
Qed.

(** C5. [claim] always returns a boolean, and the boolean is [True]
    exactly when the claim transaction was submitted, its receipt was
    obtained, and the receipt holds a non-empty list of log entries.
    Every other course (the submission raises, waiting raises, the
    receipt has no logs) ends in [False]. *)
Theorem claim_true_iff_receipt_has_logs (this : Auctionlet.t) (s : State Chain) :
  let id := Auctionlet.auctionlet_id this in
  exists b : bool,
    fst (claim this s) = Ok b
    /\ (b = true <->
        exists tx_hash c1 receipt c2 l,
          transact "claim" [id] (chain s) = (Ok tx_hash, c1)
          /\ _wait_for_receipt tx_hash c1 = (Ok receipt, c2)
          /\ logs receipt = Some (Some l)
          /\ l <> []).
Proof.
  simpl. unfold claim, _claim, try_except. run_node.
  destruct (transact "claim" _ (chain s)) as [[tx_hash|] c] eqn:Ht; simpl.
  - destruct (_wait_for_receipt tx_hash c) as [[receipt|] c'] eqn:Hw; simpl.
    + unfold receipt_getitem_logs.
      destruct (logs receipt) as [v|] eqn:Hl; simpl.
      * exists (has_logs v). split; [done|]. rewrite has_logs_true. split.
        -- intros (l & -> & Hne). by exists tx_hash, c, receipt, c', l.
        -- intros (h & c1 & r & c2 & l & Heq & Hw' & Hl' & Hne).
           injection Heq as <- <-. rewrite Hw in Hw'. injection Hw' as <- <-.
           rewrite Hl in Hl'. injection Hl' as ->. by exists l.
      * exists false. split; [done|]. split; [discriminate|].
        intros (h & c1 & r & c2 & l & Heq & Hw' & Hl' & _).
        injection Heq as <- <-. rewrite Hw in Hw'. injection Hw' as <- <-. congruence.
    + exists false. split; [done|]. split; [discriminate|].
      intros (h & c1 & r & c2 & l & Heq & Hw' & _).
      injection Heq as <- <-. rewrite Hw in Hw'. discriminate.
  - exists false. split; [done|]. split; [discriminate|].
    intros (h & c1 & r & c2 & l & Heq & _). discriminate.
Qed.

End Bidding.

Section Lookups.
Context `{Env Chain}.

(** C3 (amended). When the contract call behind it reverts,
    [get_auctionlet] returns [None] and [is_expired] returns [None];
    neither raises.  When [getAuctionletInfo] returns a tuple,
    [get_auctionlet] returns the [Auctionlet] built from that tuple (empty
    cache, the identifier asked for, the components of the tuple in their
    fields) provided [datetime.fromtimestamp] accepts the tuple's
    timestamp; when it raises on it, the constructor raises inside the
    [try] and [get_auctionlet] returns [None] although the call
    succeeded. *)
Theorem reverting_lookup_is_absent (auctionlet_id : Z) (this : Auctionlet.t)
    (s : State Chain) :
  (forall c, getAuctionletInfo auctionlet_id (chain s) = (Raised, c) ->
     fst (get_auctionlet auctionlet_id s) = Ok None)
  /\ (forall c, isExpired (Auctionlet.auctionlet_id this) (chain s) = (Raised, c) ->
        fst (is_expired this s) = Ok None)
  /\ (forall i0 i1 i2 i3 i4 i5 i6 c time,
        getAuctionletInfo auctionlet_id (chain s) = (Ok (i0, i1, i2, i3, i4, i5, i6), c) ->
        fromtimestamp i2 = Ok time ->
        fst (get_auctionlet auctionlet_id s)
        = Ok (Some {| Auctionlet._auction := None;
                      Auctionlet.auctionlet_id := auctionlet_id;
                      Auctionlet.auction_id := i0;
                      Auctionlet.last_bidder := mkAddress i1;
                      Auctionlet.last_bid_time := time;
                      Auctionlet.buy_amount := mkWad i3;
                      Auctionlet.sell_amount := mkWad i4;
                      Auctionlet.unclaimed := i5;
                      Auctionlet.base := i6 |}))
  /\ (forall i0 i1 i2 i3 i4 i5 i6 c,
        getAuctionletInfo auctionlet_id (chain s) = (Ok (i0, i1, i2, i3, i4, i5, i6), c) ->
        fromtimestamp i2 = Raised ->
        fst (get_auctionlet auctionlet_id s) = Ok None).
Proof.
  repeat split.
  - intros c Hcall. unfold get_auctionlet, try_except. run_node. by rewrite Hcall.
  - intros c Hcall.
    unfold is_expired, _is_auctionlet_expired, try_except. run_node. by rewrite Hcall.
  - intros i0 i1 i2 i3 i4 i5 i6 c time Hcall Htime.
    unfold get_auctionlet, try_except. run_node. rewrite Hcall. simpl. by rewrite Htime.
  - intros i0 i1 i2 i3 i4 i5 i6 c Hcall Htime.
    unfold get_auctionlet, try_except. run_node. rewrite Hcall. simpl. by rewrite Htime.
Qed.

(** The lookups are total: whatever the node answers, they return. *)
Lemma get_auctionlet_never_raises (auctionlet_id : Z) (s : State Chain) :
  exists r, fst (get_auctionlet auctionlet_id s) = Ok r.
Proof.
  unfold get_auctionlet, try_except. run_node.
  destruct (getAuctionletInfo auctionlet_id (chain s)) as [[info|] c]; simpl; [|by eexists].
  destruct (Auctionlet.__init__ auctionlet_id info); simpl; by eexists.
Qed.

Lemma is_expired_never_raises (this : Auctionlet.t) (s : State Chain) :
  exists r, fst (is_expired this s) = Ok r.
Proof.
  unfold is_expired, _is_auctionlet_expired, try_except. run_node.
  destruct (isExpired _ (chain s)) as [[b|] c]; simpl; by eexists.
Qed.

(** Once the parent auction is cached, [get_auction] is the identity on
    the state and on the object. *)
Lemma get_auction_cached (this : Auctionlet.t) (a : Auction.t) (s : State Chain) :
  Auctionlet._auction this = Some a ->
  get_auction this s = (Ok (a, this), s).
Proof. intros Hc. unfold get_auction. by rewrite Hc. Qed.

Lemma get_auction_times_cached (n : nat) (this : Auctionlet.t) (a : Auction.t)
    (s : State Chain) :
  Auctionlet._auction this = Some a ->
  get_auction_times n this s = (Ok (replicate n a, this), s).
Proof.
  intros Hc. induction n as [|n IH]; simpl; [done|].
  unfold bind. rewrite (get_auction_cached _ a) by done. by rewrite IH.
Qed.


End Lookups.

(** C10. Equality of [Auction] objects, and of [Auctionlet] objects, is
    equality of their identifiers: two snapshots with the same identifier
    are equal whatever their other fields hold, and two with different
    identifiers are not. *)
Theorem eq_compares_identifier_only :
  (forall a b : Auction.t,
     Auction.__eq__ a b = true <-> Auction.auction_id a = Auction.auction_id b)
  /\ (forall x y : Auctionlet.t,
        Auctionlet.__eq__ x y = true
        <-> Auctionlet.auctionlet_id x = Auctionlet.auctionlet_id y).
Proof.
  split; intros; unfold Auction.__eq__, Auctionlet.__eq__; apply bool_decide_eq_true.
Qed.

(** Two auctions and two auctionlets that agree on the identifier and
    differ in every other field compare equal. *)
Example eq_ignores_other_fields :
  Auction.__eq__
    (Auction.mk 3 (mkAddress "0x01") (mkERC20Token (mkAddress "0x02"))
       (mkERC20Token (mkAddress "0x03")) (mkWad 1) 1 1 (mkWad 10) 60 false false)
    (Auction.mk 3 (mkAddress "0x11") (mkERC20Token (mkAddress "0x12"))
       (mkERC20Token (mkAddress "0x13")) (mkWad 2) 2 2 (mkWad 20) 120 true true)
  = true
  /\ Auctionlet.__eq__
       (Auctionlet.mk None 7 3 (mkAddress "0x01") (mkDatetime 1) (mkWad 1) (mkWad 10) true true)
       (Auctionlet.mk
          (Some (Auction.mk 4 (mkAddress "0x11") (mkERC20Token (mkAddress "0x12"))
                   (mkERC20Token (mkAddress "0x13")) (mkWad 2) 2 2 (mkWad 20) 120 true true))
          7 4 (mkAddress "0x02") (mkDatetime 2) (mkWad 2) (mkWad 20) false false)
     = true.
Proof. split; reflexivity. Qed.

Section Discovery.
Context `{Env Chain}.

(** The loop that web3 runs over the replayed entries: one invocation of
    the callback per entry, in order, on the value stored under [key]. *)
Lemma for_each_invoke (key : string) (f : Callable) (entries : list Log)
    (s : State Chain) :
  Forall (fun log => is_Some (args log !! key)) entries ->
  for_each (fun log => let! i := lift (getitem (args log) key) in invoke f [i])
           entries s
  = (Ok tt, mkState (chain s) (manager s)
              (trace s ++ map (fun i => EInvoke f [i]) (arg_values key entries))).
Proof.
  intros Hall. revert s. induction Hall as [|log entries [i Hi] _ IH]; intros s.
  - destruct s. simpl. by rewrite app_nil_r.
  - simpl. unfold bind at 1. unfold bind at 1. unfold lift, getitem, invoke.
    unfold arg_values. simpl. rewrite Hi. simpl.
    rewrite IH. simpl. by rewrite <- app_assoc.
Qed.

Lemma arg_values_length (key : string) (entries : list Log) :
  Forall (fun log => is_Some (args log !! key)) entries ->
  length (arg_values key entries) = length entries.
Proof.
  induction 1 as [|log entries [i Hi] _ IH]; [done|].
  unfold arg_values in *. cbn [omap list_omap]. rewrite Hi. cbn [length].
  by f_equal.
Qed.


End Discovery.

Section Notifications.
Context `{Env Chain}.

(** The filter of lines 43 and 48: a new-auction or bid entry whose
    transaction hash is in [_our_tx_hashes] reaches no handler. *)
Lemma known_hash_is_suppressed (name : EventName) (log : Log) (s : State Chain) :
  name = LogNewAuction \/ name = LogBid ->
  transactionHash log ∈ _our_tx_hashes (manager s) ->
  deliver name log s = (Ok tt, s).
Proof.
  intros [-> | ->] Hin; simpl;
    unfold _on_new_auction, _on_bid; run_node;
    rewrite bool_decide_eq_false_2; auto.
Qed.

(** Split and reversal entries are handed to the registered handler
    whatever their transaction hash. *)
Lemma split_and_reversal_are_not_filtered (log : Log) (s : State Chain)
    (handler : Callable) :
  (forall base_id new_id split_id,
     _on_split_handler (manager s) = Some handler ->
     args log !! "base_id" = Some base_id ->
     args log !! "new_id" = Some new_id ->
     args log !! "split_id" = Some split_id ->
     deliver LogSplit log s
     = (Ok tt, mkState (chain s) (manager s)
                 (trace s ++ [EInvoke handler [base_id; new_id; split_id]])))
  /\ (forall auction_id,
        _on_auction_reversal_handler (manager s) = Some handler ->
        args log !! "auction_id" = Some auction_id ->
        deliver LogAuctionReversal log s
        = (Ok tt, mkState (chain s) (manager s)
                    (trace s ++ [EInvoke handler [auction_id]]))).
Proof.
  split.
  - intros b n sp Hh Hb Hn Hs. simpl. unfold _on_split, invoke, getitem. run_node.
    rewrite Hh. simpl. by rewrite Hb, Hn, Hs.
  - intros a Hh Ha. simpl. unfold _on_auction_reversal, invoke, getitem. run_node.
    rewrite Hh. simpl. by rewrite Ha.
Qed.

(** With no hash recorded, a bid entry is handed to the bid handler. *)
Lemma unknown_hash_reaches_bid_handler (log : Log) (s : State Chain)
    (handler : Callable) (auctionlet_id : Z) :
  transactionHash log ∉ _our_tx_hashes (manager s) ->
  _on_bid_handler (manager s) = Some handler ->
  args log !! "auctionlet_id" = Some auctionlet_id ->
  deliver LogBid log s
  = (Ok tt, mkState (chain s) (manager s) (trace s ++ [EInvoke handler [auctionlet_id]])).
Proof.
  intros Hnot Hh Ha. simpl. unfold _on_bid, invoke, getitem. run_node.
  rewrite bool_decide_eq_true_2 by done. rewrite Hh. simpl. by rewrite Ha.
Qed.

End Notifications.

(** C2. The client's own bid is reported to the bid handler.  On the
    scripted node, a manager with the handler ["keeper"] registered submits
    a bid for auctionlet 7; the transaction gets the hash ["0x0"].  After
    the bid the set [_our_tx_hashes] is still empty, and the [LogBid] entry
    of that very transaction, when delivered, invokes the handler. *)
Theorem own_bid_reaches_bid_handler :
  let s0 := snd (on_bid "keeper" (TestNode.start true)) in
  let s1 := snd (bid TestNode.auctionlet7 (mkWad 5) None s0) in
  let s2 := snd (deliver LogBid (TestNode.bid_log "0x0" 7) s1) in
  fst (bid TestNode.auctionlet7 (mkWad 5) None s0) = Ok true
  /\ trace s1 = [ETransact "bid" [7; 5; 100]; EWaitForReceipt "0x0"]
  /\ _our_tx_hashes (manager s1) = ∅
  /\ invocations "keeper" (trace s1) = []
  /\ invocations "keeper" (trace s2) = [[7]].
Proof.
  simpl. repeat split; reflexivity.
Qed.

(** ** The theorems at work on the scripted node *)

Lemma bid_quantity_on_non_splitting_rejected_witness :
  bid TestNode.auctionlet7 (mkWad 5) (Some (mkWad 40)) (TestNode.start false)
  = (Ok false, TestNode.start false).
Proof.
  apply bid_quantity_on_non_splitting_rejected. reflexivity.
Defined.


Lemma reverting_lookup_is_absent_witness :
  fst (get_auctionlet 8 (TestNode.start false)) = Ok None
  /\ fst (is_expired TestNode.auctionlet8 (TestNode.start false)) = Ok None
  /\ fst (get_auctionlet 7 (TestNode.start false)) = Ok (Some TestNode.auctionlet7)
  /\ fst (get_auctionlet 7 LateNode.start) = Ok None.
Proof.
  split; [|split; [|split]].
  - exact (proj1 (reverting_lookup_is_absent 8 TestNode.auctionlet8 (TestNode.start false))
             [] eq_refl).
  - exact (proj1 (proj2 (reverting_lookup_is_absent 8 TestNode.auctionlet8
                           (TestNode.start false)))
             [] eq_refl).
  - exact (proj1 (proj2 (proj2 (reverting_lookup_is_absent 7 TestNode.auctionlet7
                                  (TestNode.start false))))
             1 "0x04" 1500000000 10 100 true true [] (mkDatetime 1500000000)
             eq_refl eq_refl).
  - exact (proj2 (proj2 (proj2 (reverting_lookup_is_absent 7 TestNode.auctionlet7
                                  LateNode.start)))
             1 "0x04" 1000000000000000000 10 100 true true tt eq_refl eq_refl).
Defined.

(** C3, counterexample.  A succeeding call does not always give an
    auctionlet: on [LateNode] the call for identifier 7 returns a tuple
    whose timestamp [datetime.fromtimestamp] refuses, and [get_auctionlet]
    returns [None]. *)
Lemma succeeding_call_can_give_absent :
  getAuctionletInfo 7 (chain LateNode.start)
  = (Ok (1, "0x04", 1000000000000000000, 10, 100, true, true), tt)
  /\ fst (get_auctionlet 7 LateNode.start) = Ok None.
Proof. split; reflexivity. Qed.



(** * Properties of the order wire format *)

Section DecimalStrings.

(** Python's [int] reads back what [str] printed. *)
Lemma int_str (n : Z) : int (str n) = Ok n.
Proof.
  unfold int, str. rewrite NilZero.isi.
  - by rewrite DecimalZ.of_to.
  - destruct n; simpl; try discriminate.
    intros Heq. injection Heq as Heq. by apply Unsigned.to_uint_nonnil in Heq.
  - destruct n; simpl; try discriminate.
    intros Heq. injection Heq as Heq. by apply Unsigned.to_uint_nonnil in Heq.
Qed.

End DecimalStrings.

Section WireFormat.
Import Zrx.

Lemma signature_fields_to_json (order : Order) :
  signature_fields (to_json order)
  = Ok (ec_signature_r order, ec_signature_s order, ec_signature_v order).
Proof.
  unfold signature_fields.
  change (to_json order !! "ecSignature")
    with (Some (JObject (list_to_map
                  [ ("r", json_of_string (ec_signature_r order));
                    ("s", json_of_string (ec_signature_s order));
                    ("v", json_of_number (ec_signature_v order)) ]))).
  by destruct (ec_signature_r order), (ec_signature_s order), (ec_signature_v order).
Qed.

Lemma address_field_to_json (order : Order) :
  address_field (to_json order) "maker" = Ok (maker order)
  /\ address_field (to_json order) "taker" = Ok (taker order)
  /\ address_field (to_json order) "makerTokenAddress" = Ok (maker_token_address order)
  /\ address_field (to_json order) "takerTokenAddress" = Ok (taker_token_address order)
  /\ address_field (to_json order) "feeRecipient" = Ok (fee_recipient order)
  /\ address_field (to_json order) "exchangeContractAddress"
     = Ok (exchange_contract_address order).
Proof.
  destruct order as [ex [m] [t] mf tf mta tta [mt] [tt] sa [fr] e [eca] ? ? ?].
  repeat split.
Qed.

Lemma int_field_to_json (order : Order) :
  int_field (to_json order) "makerFee" = Ok (value (maker_fee order))
  /\ int_field (to_json order) "takerFee" = Ok (value (taker_fee order))
  /\ int_field (to_json order) "makerTokenAmount" = Ok (value (maker_token_amount order))
  /\ int_field (to_json order) "takerTokenAmount" = Ok (value (taker_token_amount order))
  /\ int_field (to_json order) "salt" = Ok (salt order)
  /\ int_field (to_json order) "expirationUnixTimestampSec" = Ok (expiration order).
Proof.
  repeat split.
  - change (int_field (to_json order) "makerFee") with (int (str (value (maker_fee order)))).
    apply int_str.
  - change (int_field (to_json order) "takerFee") with (int (str (value (taker_fee order)))).
    apply int_str.
  - change (int_field (to_json order) "makerTokenAmount")
      with (int (str (value (maker_token_amount order)))).
    apply int_str.
  - change (int_field (to_json order) "takerTokenAmount")
      with (int (str (value (taker_token_amount order)))).
    apply int_str.
  - change (int_field (to_json order) "salt") with (int (str (salt order))).
    apply int_str.
  - change (int_field (to_json order) "expirationUnixTimestampSec")
      with (int (str (expiration order))).
    apply int_str.
Qed.

(** Parsing what [to_json] wrote gives the order back, bound to the
    exchange client handed to [from_json]. *)
Lemma from_json_to_json (exchange : option ZrxExchange) (order : Order) :
  from_json exchange (to_json order) = Ok (bound_to exchange order).
Proof.
  destruct (address_field_to_json order) as (Hm & Ht & Hmt & Htt & Hfr & Heca).
  destruct (int_field_to_json order) as (Hmf & Htf & Hma & Hta & Hs & He).
  unfold from_json.
  rewrite Hm, Ht, Hmt, Htt, Hfr, Heca, Hmf, Htf, Hma, Hta, Hs, He,
    signature_fields_to_json.
  simpl. unfold bound_to.
  by destruct order as [ex m t [mf] [tf] [mta] [tta] mt tt sa fr e eca ? ? ?].
Qed.

End WireFormat.

Section OrderJson.
Import Zrx.

(** A wire object without the signature block parses, if it parses at
    all, to an order none of whose signature fields is set. *)
Lemma unsigned_json_has_no_signature (exchange : option ZrxExchange)
    (data : gmap string json) (parsed : Order) :
  data !! "ecSignature" = None ->
  from_json exchange data = Ok parsed ->
  ec_signature_r parsed = None
  /\ ec_signature_s parsed = None
  /\ ec_signature_v parsed = None.
Proof.
  intros Hnone. unfold from_json, signature_fields. rewrite Hnone.
  repeat match goal with
         | |- context [and_then ?r _] => destruct r; simpl; [|discriminate]
         end.
  intros Heq. injection Heq as <-. done.
Qed.


(** C7. Whatever the order holds, the object written by
    [to_json_without_fees] has no entry under [makerFee], [takerFee],
    [feeRecipient] or [ecSignature] (its keys are the nine others of the
    wire format), and the object written by [to_json] has an entry under
    each of the four. *)
Theorem without_fees_omits_fee_and_signature_keys (order : Order) :
  let fee_keys := ["makerFee"; "takerFee"; "feeRecipient"; "ecSignature"] in
  Forall (fun key => to_json_without_fees order !! key = None) fee_keys
  /\ Forall (fun key => is_Some (to_json order !! key)) fee_keys
  /\ dom (to_json_without_fees order)
     = list_to_set
         [ "exchangeContractAddress"; "maker"; "taker"; "makerTokenAddress";
           "takerTokenAddress"; "makerTokenAmount"; "takerTokenAmount";
           "expirationUnixTimestampSec"; "salt" ].
Proof.
  simpl. split; [|split].
  - repeat constructor.
  - repeat constructor; by eexists.
  - unfold to_json_without_fees. rewrite dom_list_to_map_L. reflexivity.
Qed.

(** The serialisation tests (test_zrx.py:316-349 and 351-392). *)
Example test_serialize_order_to_json_without_fees :
  to_json_without_fees test_order
  = list_to_map
      [ ("exchangeContractAddress", JString "0x12459c951127e0c374ff9105dda097662a027093");
        ("maker", JString "0x9e56625509c2f60af937f23b7b532600390e8c8b");
        ("taker", JString "0x0000000000000000000000000000000000000000");
        ("makerTokenAddress", JString "0x323b5d4c32345ced77393b3530b1eed0f346429d");
        ("takerTokenAddress", JString "0xef7fff64389b814a946f3e92105513705ca6b990");
        ("makerTokenAmount", JString "10000000000000000");
        ("takerTokenAmount", JString "20000000000000000");
        ("expirationUnixTimestampSec", JString "42");
        ("salt",
         JString "67006738228878699843088602623665307406148487219438534730168799356281242528500") ].
Proof.
  vm_cast_no_check (@eq_refl (gmap string json) (to_json_without_fees test_order)).
Qed.

Example test_serialize_order_to_json :
  to_json test_order
  = list_to_map
      [ ("exchangeContractAddress", JString "0x12459c951127e0c374ff9105dda097662a027093");
        ("maker", JString "0x9e56625509c2f60af937f23b7b532600390e8c8b");
        ("taker", JString "0x0000000000000000000000000000000000000000");
        ("makerTokenAddress", JString "0x323b5d4c32345ced77393b3530b1eed0f346429d");
        ("takerTokenAddress", JString "0xef7fff64389b814a946f3e92105513705ca6b990");
        ("feeRecipient", JString "0x6666666666666666666666666666666666666666");
        ("makerTokenAmount", JString "10000000000000000");
        ("takerTokenAmount", JString "20000000000000000");
        ("makerFee", JString "123000000000000000000");
        ("takerFee", JString "456000000000000000000");
        ("expirationUnixTimestampSec", JString "42");
        ("salt",
         JString "67006738228878699843088602623665307406148487219438534730168799356281242528500");
        ("ecSignature",
         JObject (list_to_map
           [ ("r", JString "0xde21c90d3db3abdc8bdc5fafb1f5432a1dede4d621508e7d96fb2ebc15d7eb2f");
             ("s", JString "0x74f3cb421f75727b78ae98157ddce6a77b46c8714f5848d70f6da083527e1719");
             ("v", JNumber 28) ])) ].
Proof. vm_cast_no_check (@eq_refl (gmap string json) (to_json test_order)). Qed.

(** The parsing test for an unsigned order (test_zrx.py:278-314). *)
Example test_parse_unsigned_json_order :
  from_json None unsigned_json_order
  = Ok {| exchange := None;
          maker := mkAddress "0x0046cac6668bef45b517a1b816a762f4f8add2a9";
          taker := mkAddress "0x0000000000000000000000000000000000000000";
          maker_fee := Wad_from_number 0;
          taker_fee := Wad_from_number 0;
          maker_token_amount := Wad_from_number 11;
          taker_token_amount := mkWad 30800000000000000;
          maker_token_address := mkAddress "0x59adcf176ed2f6788a41b8ea4c4904518e62b6a4";
          taker_token_address := mkAddress "0x2956356cd2a2bf3202f771f50d3d14a367b48070";
          salt := 50626048444772008084444062440502087868712695090943879708059561407114509847312;
          fee_recipient := mkAddress "0xa258b39954cef5cb142fd567a46cddb31a670124";
          expiration := 1511988904;
          exchange_contract_address := mkAddress "0x12459c951127e0c374ff9105dda097662a027093";
          ec_signature_r := None;
          ec_signature_s := None;
          ec_signature_v := None |}.
Proof. vm_compute. reflexivity. Qed.

End OrderJson.

(** * Further properties of the auction-manager client *)

Import Client.

Section BidAndClaim.
Context `{Env Chain}.

(** The shape of [bid]: rejected at once, or one submission followed by
    the wait for its receipt, under the handler of the [try]. *)
Lemma bid_cases (this : Auctionlet.t) (how_much : Wad) (quantity : option Wad)
    (s : State Chain) :
  bid this how_much quantity s
  = match bid_arguments (is_splitting (manager s)) this how_much quantity with
    | Some arguments =>
        try_except
          (let! tx_hash := node (ETransact "bid" arguments) (transact "bid" arguments) in
           await_logs tx_hash)
          (ret false) s
    | None => (Ok false, s)
    end.
Proof.
  unfold bid, bid_arguments, try_except. run_node.
  by destruct quantity as [q|], (is_splitting (manager s)).
Qed.

(** What a submission followed by the wait returns and leaves behind. *)
Lemma submission_outcome (method : string) (arguments : list Z) (s : State Chain) :
  let r := try_except
             (let! tx_hash := node (ETransact method arguments) (transact method arguments) in
              await_logs tx_hash)
             (ret false) s in
  (exists b : bool,
     fst r = Ok b
     /\ (b = true <->
         exists tx_hash c1 receipt c2 l,
           transact method arguments (chain s) = (Ok tx_hash, c1)
           /\ _wait_for_receipt tx_hash c1 = (Ok receipt, c2)
           /\ logs receipt = Some (Some l)
           /\ l <> []))
  /\ trace (snd r)
     = trace s ++ ETransact method arguments
                  :: match fst (transact method arguments (chain s)) with
                     | Ok tx_hash => [EWaitForReceipt tx_hash]
                     | Raised => []
                     end
  /\ manager (snd r) = manager s.
Proof.
  simpl. unfold try_except. run_node.
  destruct (transact method arguments (chain s)) as [[tx_hash|] c] eqn:Ht; simpl.
  - set (s1 := mkState c (manager s) (trace s ++ [ETransact method arguments])).
    pose proof (await_logs_effect tx_hash s1) as [Htr Hm].
    pose proof (await_logs_true tx_hash s1) as Htrue.
    destruct (await_logs tx_hash s1) as [[b|] s2]; simpl in *.
    + split; [|split; [by rewrite Htr, <- app_assoc | done]].
      exists b. split; [done|]. split.
      * intros ->. destruct Htrue as [Hex _].
        destruct (Hex eq_refl) as (r & c2 & l & Hw & Hl & Hne).
        by exists tx_hash, c, r, c2, l.
      * intros (h & c1 & r & c2 & l & Heq & Hw & Hl & Hne).
        injection Heq as <- <-.
        destruct Htrue as [_ Hback].
        assert (Ok b = Ok true) as Hb by (apply Hback; by exists r, c2, l).
        by injection Hb.
    + split; [|split; [by rewrite Htr, <- app_assoc | done]].
      exists false. split; [done|]. split; [discriminate|].
      intros (h & c1 & r & c2 & l & Heq & Hw & Hl & Hne).
      injection Heq as <- <-.
      destruct Htrue as [_ Hback].
      assert (@Raised bool = Ok true) as Hb by (apply Hback; by exists r, c2, l).
      discriminate.
  - split; [|split; done].
    exists false. split; [done|]. split; [discriminate|].
    intros (h & c1 & r & c2 & l & Heq & _). discriminate.
Qed.

(** X1. [bid] always returns a boolean.  It returns [True] exactly when
    the call is one that submits (not a partial bid on a non-splitting
    manager), the submission returned a transaction hash, the receipt of
    that hash was obtained and it holds a non-empty list of log entries. *)
Theorem bid_true_iff_receipt_has_logs
    (this : Auctionlet.t) (how_much : Wad) (quantity : option Wad) (s : State Chain) :
  exists b : bool,
    fst (bid this how_much quantity s) = Ok b
    /\ (b = true <->
        exists arguments tx_hash c1 receipt c2 l,
          bid_arguments (is_splitting (manager s)) this how_much quantity = Some arguments
          /\ transact "bid" arguments (chain s) = (Ok tx_hash, c1)
          /\ _wait_for_receipt tx_hash c1 = (Ok receipt, c2)
          /\ logs receipt = Some (Some l)
          /\ l <> []).
Proof.
  rewrite bid_cases.
  destruct (bid_arguments _ this how_much quantity) as [arguments|] eqn:Hargs.
  - destruct (submission_outcome "bid" arguments s) as [(b & Hb & Hiff) _].
    exists b. split; [exact Hb|]. rewrite Hiff. split.
    + intros (h & c1 & r & c2 & l & Hrest). by exists arguments, h, c1, r, c2, l.
    + intros (a & h & c1 & r & c2 & l & Ha & Hrest). injection Ha as <-.
      by exists h, c1, r, c2, l.
  - exists false. split; [done|]. split; [discriminate|].
    intros (a & h & c1 & r & c2 & l & Ha & _). discriminate.
Qed.

(** X2. What [claim] and a submitting [bid] do to the node: one
    submission, then one wait, for the hash that the submission returned
    and only if it returned one.  Nothing else happens: no contract read,
    no handler call, and the manager object is as before. *)
Theorem submission_is_followed_by_one_wait
    (this : Auctionlet.t) (how_much : Wad) (quantity : option Wad) (s : State Chain) :
  let id := Auctionlet.auctionlet_id this in
  (trace (snd (claim this s))
   = trace s ++ ETransact "claim" [id]
                :: match fst (transact "claim" [id] (chain s)) with
                   | Ok tx_hash => [EWaitForReceipt tx_hash]
                   | Raised => []
                   end)
  /\ (forall arguments,
        bid_arguments (is_splitting (manager s)) this how_much quantity = Some arguments ->
        trace (snd (bid this how_much quantity s))
        = trace s ++ ETransact "bid" arguments
                     :: match fst (transact "bid" arguments (chain s)) with
                        | Ok tx_hash => [EWaitForReceipt tx_hash]
                        | Raised => []
                        end)
  /\ manager (snd (claim this s)) = manager s
  /\ manager (snd (bid this how_much quantity s)) = manager s.
Proof.
  simpl. split; [|split; [|split]].
  - destruct (submission_outcome "claim" [Auctionlet.auctionlet_id this] s) as (_ & Htr & _).
    exact Htr.
  - intros arguments Hargs. rewrite bid_cases, Hargs.
    destruct (submission_outcome "bid" arguments s) as (_ & Htr & _). exact Htr.
  - apply claim_leaves_manager.
  - apply bid_leaves_manager.
Qed.

(** X3. On a splitting manager, a bid without quantity is the bid for the
    auctionlet's whole sell amount: the two calls are the same computation
    (same result, same effects). *)
Theorem bid_without_quantity_is_full_quantity
    (this : Auctionlet.t) (how_much : Wad) (s : State Chain) :
  is_splitting (manager s) = true ->
  bid this how_much None s
  = bid this how_much (Some (Auctionlet.sell_amount this)) s.
Proof.
  intros Hsp. rewrite !bid_cases, Hsp. reflexivity.
Qed.

(** X4. [can_split] tells whether a partial bid goes out: a bid with a
    quantity submits a transaction exactly when [can_split] answers
    [True]. *)
Theorem partial_bid_submits_iff_can_split
    (this : Auctionlet.t) (how_much quantity : Wad) (s : State Chain) :
  submitted (trace (snd (bid this how_much (Some quantity) s))) <> submitted (trace s)
  <-> fst (can_split this s) = Ok true.
Proof.
  unfold can_split. run_node. rewrite bid_cases. unfold bid_arguments.
  destruct (is_splitting (manager s)); simpl.
  - split; [done|]. intros _.
    destruct (submission_outcome "bid"
                [Auctionlet.auctionlet_id this; value how_much; value quantity] s)
      as (_ & Htr & _).
    simpl in Htr. rewrite Htr, submitted_app.
    intros Heq. apply (f_equal length) in Heq.
    rewrite length_app in Heq.
    destruct (transact "bid" _ (chain s)) as [[h|] c]; simpl in Heq; lia.
  - split; [done | discriminate].
Qed.

End BidAndClaim.

Section Delivery.
Context `{Env Chain}.

(** The four receiving methods at once: an entry is dropped when its
    event is filtered by origin and its hash is known, or when no handler
    is registered; otherwise the arguments are read, and the handler is
    called with them if they are all there. *)
Lemma deliver_cases (name : EventName) (log : Log) (s : State Chain) :
  deliver name log s
  = if filtered_by_origin name
       && bool_decide (transactionHash log ∈ _our_tx_hashes (manager s))
    then (Ok tt, s)
    else match handler_slot name (manager s) with
         | None => (Ok tt, s)
         | Some handler =>
             match mapM (fun key => args log !! key) (passed_keys name) with
             | Some values =>
                 (Ok tt, mkState (chain s) (manager s)
                           (trace s ++ [EInvoke handler values]))
             | None => (Raised, s)
             end
         end.
Proof.
  destruct name; simpl;
    unfold _on_new_auction, _on_bid, _on_split, _on_auction_reversal, invoke, getitem;
    run_node.
  - destruct (decide (transactionHash log ∈ _our_tx_hashes (manager s))) as [Hin|Hout].
    + rewrite (bool_decide_eq_true_2 _ Hin), bool_decide_eq_false_2; [done|]. by intros ?.
    + rewrite (bool_decide_eq_false_2 _ Hout), bool_decide_eq_true_2 by done.
      destruct (_on_new_auction_handler (manager s)); [|done].
      by destruct (args log !! "base_id").
  - destruct (decide (transactionHash log ∈ _our_tx_hashes (manager s))) as [Hin|Hout].
    + rewrite (bool_decide_eq_true_2 _ Hin), bool_decide_eq_false_2; [done|]. by intros ?.
    + rewrite (bool_decide_eq_false_2 _ Hout), bool_decide_eq_true_2 by done.
      destruct (_on_bid_handler (manager s)); [|done].
      by destruct (args log !! "auctionlet_id").
  - destruct (_on_split_handler (manager s)); [|done].
    destruct (args log !! "base_id"); simpl; [|done].
    destruct (args log !! "new_id"); simpl; [|done].
    by destruct (args log !! "split_id").
  - destruct (_on_auction_reversal_handler (manager s)); [|done].
    by destruct (args log !! "auction_id").
Qed.

(** What a registration changes in the manager: one slot. *)
Lemma register_effect (name : EventName) (handler : Callable) (s : State Chain) :
  let s' := snd (register name handler s) in
  chain s' = chain s
  /\ trace s' = trace s
  /\ _our_tx_hashes (manager s') = _our_tx_hashes (manager s)
  /\ is_splitting (manager s') = is_splitting (manager s)
  /\ AuctionManager.address (manager s') = AuctionManager.address (manager s)
  /\ handler_slot name (manager s') = Some handler
  /\ (forall other, other <> name ->
        handler_slot other (manager s') = handler_slot other (manager s)).
Proof.
  destruct name; simpl; repeat split; intros [] Hne; done.
Qed.

(** X5. An event without a registered handler is ignored: the entry is
    dropped without reading its arguments, so even an entry that lacks
    them raises nothing and leaves the client as it was. *)
Theorem unregistered_event_is_ignored (name : EventName) (log : Log) (s : State Chain) :
  handler_slot name (manager s) = None ->
  deliver name log s = (Ok tt, s).
Proof.
  intros Hnone. rewrite deliver_cases, Hnone. by destruct (_ && _).
Qed.


(** X7. A handler slot holds one callable: registering a second handler
    for an event replaces the first, which is then never called for that
    event again; the second is called with the arguments of the entry. *)
Theorem last_registration_wins
    (name : EventName) (first second : Callable) (log : Log) (s : State Chain)
    (values : list Z) :
  first <> second ->
  transactionHash log ∉ _our_tx_hashes (manager s) ->
  mapM (fun key => args log !! key) (passed_keys name) = Some values ->
  let s' := snd (register name second (snd (register name first s))) in
  let after := snd (deliver name log s') in
  invocations first (trace after) = invocations first (trace s)
  /\ invocations second (trace after) = invocations second (trace s) ++ [values].
Proof.
  intros Hne Hout Hvalues. simpl.
  destruct (register_effect name first s) as (_ & Htr1 & Hh1 & _).
  destruct (register_effect name second (snd (register name first s)))
    as (_ & Htr2 & Hh2 & _ & _ & Hslot & _).
  rewrite deliver_cases, Hslot, Hvalues, Hh2, Hh1.
  rewrite (bool_decide_eq_false_2 _ Hout), andb_false_r. simpl.
  rewrite Htr2, Htr1, !invocations_app. simpl.
  rewrite bool_decide_eq_false_2 by (by intros ->).
  rewrite bool_decide_eq_true_2 by done.
  by rewrite app_nil_r.
Qed.

(** X8. Registration is per event: registering a handler for one event
    does not change what the delivery of an entry of another event returns
    or records. *)
Theorem registration_is_per_event
    (name other : EventName) (handler : Callable) (log : Log) (s : State Chain) :
  other <> name ->
  let s' := snd (register name handler s) in
  fst (deliver other log s') = fst (deliver other log s)
  /\ trace (snd (deliver other log s')) = trace (snd (deliver other log s))
  /\ chain (snd (deliver other log s')) = chain (snd (deliver other log s)).
Proof.
  intros Hne. simpl.
  destruct (register_effect name handler s) as (Hc & Htr & Hh & _ & _ & _ & Hother).
  rewrite !deliver_cases, (Hother other Hne), Hh.
  destruct (_ && _); simpl; [by rewrite Htr, Hc|].
  destruct (handler_slot other (manager s)); simpl; [|by rewrite Htr, Hc].
  destruct (mapM _ _); simpl; by rewrite ?Htr, ?Hc.
Qed.

End Delivery.

Section OriginFilter.
Context `{Env Chain}.

(** X9. The origin filter itself: a new-auction or bid entry whose
    transaction hash is in [_our_tx_hashes] is dropped, whatever handler
    is registered and whatever the entry holds; nothing is called and the
    client state is the one before. *)
Theorem origin_filter_drops_known_hash (name : EventName) (log : Log) (s : State Chain) :
  filtered_by_origin name = true ->
  transactionHash log ∈ _our_tx_hashes (manager s) ->
  deliver name log s = (Ok tt, s)
  /\ forall f, invocations f (trace (snd (deliver name log s))) = invocations f (trace s).
Proof.
  intros Hf Hin.
  assert (Hdrop : deliver name log s = (Ok tt, s)).
  { rewrite deliver_cases, Hf. by rewrite (bool_decide_eq_true_2 _ Hin). }
  split; [exact Hdrop|]. intros f. by rewrite Hdrop.
Qed.

(** X10. The origin filter spares split and reversal notifications: an
    entry of either event whose transaction hash is in [_our_tx_hashes]
    is still handed to the registered handler, with the arguments of the
    entry in the order the method reads them. *)
Theorem known_hash_still_reaches_split_and_reversal
    (name : EventName) (log : Log) (s : State Chain) (handler : Callable)
    (values : list Z) :
  name = LogSplit \/ name = LogAuctionReversal ->
  transactionHash log ∈ _our_tx_hashes (manager s) ->
  handler_slot name (manager s) = Some handler ->
  mapM (fun key => args log !! key) (passed_keys name) = Some values ->
  deliver name log s
  = (Ok tt, mkState (chain s) (manager s) (trace s ++ [EInvoke handler values])).
Proof.
  intros Hname Hin Hh Hvalues. rewrite deliver_cases, Hh, Hvalues.
  by destruct Hname as [-> | ->].
Qed.

End OriginFilter.

Section Replay.
Context `{Env Chain}.

(** The loop over the replayed entries, whatever the entries hold: the
    callback is called for the entries before the first one without the
    key, and the loop raises at that one. *)
Lemma for_each_replay (key : string) (f : Callable) (entries : list Log)
    (s : State Chain) :
  for_each (fun log => let! i := lift (getitem (args log) key) in invoke f [i])
           entries s
  = (if all_have key entries then Ok tt else Raised,
     mkState (chain s) (manager s)
       (trace s ++ map (fun i => EInvoke f [i]) (replayed key entries))).
Proof.
  revert s. induction entries as [|log entries IH]; intros s.
  - destruct s. simpl. by rewrite app_nil_r.
  - simpl. unfold bind at 1. unfold bind at 1. unfold lift, getitem, invoke.
    destruct (args log !! key) as [i|] eqn:Hi; simpl.
    + rewrite IH. simpl. by rewrite <- app_assoc.
    + destruct s. simpl. by rewrite app_nil_r.
Qed.

(** Every course [discover_recent_auctionlets] can take. *)
Lemma discover_cases (lookback : Z) (f : Callable) (s : State Chain) :
  discover_recent_auctionlets lookback f s
  = match blockNumber (chain s) with
    | (Raised, c1) => (Raised, mkState c1 (manager s) (trace s ++ [EBlockNumber]))
    | (Ok current, c1) =>
        let from := current - lookback in
        match pastEvents LogNewAuction from c1 with
        | (Raised, c2) =>
            (Raised, mkState c2 (manager s)
                       (trace s ++ [EBlockNumber; EPastEvents LogNewAuction from]))
        | (Ok news, c2) =>
            let tr2 := trace s ++ [EBlockNumber; EPastEvents LogNewAuction from]
                       ++ map (fun i => EInvoke f [i]) (replayed "base_id" news) in
            if all_have "base_id" news then
              match pastEvents LogSplit from c2 with
              | (Raised, c3) =>
                  (Raised, mkState c3 (manager s) (tr2 ++ [EPastEvents LogSplit from]))
              | (Ok splits, c3) =>
                  (if all_have "split_id" splits then Ok tt else Raised,
                   mkState c3 (manager s)
                     (tr2 ++ [EPastEvents LogSplit from]
                      ++ map (fun i => EInvoke f [i]) (replayed "split_id" splits)))
              end
            else (Raised, mkState c2 (manager s) tr2)
        end
    end.
Proof.
  unfold discover_recent_auctionlets, contract_pastEvents.
  unfold bind at 1. unfold node at 1.
  destruct (blockNumber (chain s)) as [[current|] c1]; [|done].
  unfold bind at 1. unfold bind at 1. unfold node at 1. simpl.
  destruct (pastEvents LogNewAuction (current - lookback) c1) as [[news|] c2];
    [|by rewrite <- app_assoc].
  rewrite for_each_replay. simpl.
  destruct (all_have "base_id" news); [|by rewrite <- !app_assoc].
  unfold bind at 1. unfold node at 1. simpl.
  destruct (pastEvents LogSplit (current - lookback) c2) as [[splits|] c3]; simpl.
  - rewrite for_each_replay. simpl. do 2 f_equal.
    by rewrite <- !app_assoc.
  - do 2 f_equal. by rewrite <- !app_assoc.
Qed.

Lemma submitted_invokes (f : Callable) (ids : list Z) :
  submitted (map (fun i => EInvoke f [i]) ids) = []
  /\ called (map (fun i => EInvoke f [i]) ids) = [].
Proof. induction ids as [|i ids [IH1 IH2]]; [done|]. simpl. by rewrite IH1, IH2. Qed.

Lemma invocations_of_other (f g : Callable) (ids : list Z) :
  g <> f -> invocations g (map (fun i => EInvoke f [i]) ids) = [].
Proof.
  intros Hne. induction ids as [|i ids IH]; [done|].
  simpl. unfold invocations in *. simpl.
  by rewrite bool_decide_eq_false_2 by (by intros ->).
Qed.

(** The manager object is not touched by a discovery. *)
Lemma discover_leaves_manager (lookback : Z) (f : Callable) (s : State Chain) :
  manager (snd (discover_recent_auctionlets lookback f s)) = manager s.
Proof.
  rewrite discover_cases.
  destruct (blockNumber (chain s)) as [[current|] c1]; simpl; [|done].
  destruct (pastEvents LogNewAuction (current - lookback) c1) as [[news|] c2]; simpl;
    [|done].
  destruct (all_have "base_id" news); simpl; [|done].
  by destruct (pastEvents LogSplit (current - lookback) c2) as [[splits|] c3].
Qed.

(** X11. [discover_recent_auctionlets] only reads: whatever the node
    answers and whatever the entries hold, it submits no transaction,
    issues no contract call, calls no callable other than the callback it
    was given, and leaves the manager object as it was. *)
Theorem discovery_only_reads (lookback : Z) (f : Callable) (s : State Chain) :
  let s' := snd (discover_recent_auctionlets lookback f s) in
  submitted (trace s') = submitted (trace s)
  /\ called (trace s') = called (trace s)
  /\ manager s' = manager s
  /\ (forall g, g <> f -> invocations g (trace s') = invocations g (trace s)).
Proof.
  simpl. rewrite discover_cases.
  destruct (blockNumber (chain s)) as [[current|] c1]; simpl.
  2: { rewrite submitted_app, called_app. repeat split; try by rewrite app_nil_r.
       intros g _. rewrite invocations_app. by rewrite app_nil_r. }
  destruct (pastEvents LogNewAuction (current - lookback) c1) as [[news|] c2]; simpl.
  2: { rewrite submitted_app, called_app. repeat split; try by rewrite app_nil_r.
       intros g _. rewrite invocations_app. by rewrite app_nil_r. }
  destruct (submitted_invokes f (replayed "base_id" news)) as [Hs1 Hc1].
  destruct (all_have "base_id" news); simpl.
  2: { rewrite !submitted_app, !called_app. simpl. rewrite Hs1, Hc1.
       repeat split; try by rewrite app_nil_r.
       intros g Hg. rewrite !invocations_app. simpl.
       rewrite (invocations_of_other f g) by done. by rewrite app_nil_r. }
  destruct (pastEvents LogSplit (current - lookback) c2) as [[splits|] c3]; simpl.
  - destruct (submitted_invokes f (replayed "split_id" splits)) as [Hs2 Hc2].
    rewrite !submitted_app, !called_app. simpl. rewrite Hs1, Hc1, Hs2, Hc2.
    repeat split; try by rewrite !app_nil_r.
    intros g Hg. rewrite !invocations_app. simpl.
    rewrite !(invocations_of_other f g) by done. by rewrite !app_nil_r.
  - rewrite !submitted_app, !called_app. simpl. rewrite Hs1, Hc1.
    repeat split; try by rewrite !app_nil_r.
    intros g Hg. rewrite !invocations_app. simpl.
    rewrite !(invocations_of_other f g) by done. by rewrite !app_nil_r.
Qed.

End Replay.

Section Sessions.
Context `{Env Chain}.

Lemma deliver_leaves_manager (name : EventName) (log : Log) (s : State Chain) :
  manager (snd (deliver name log s)) = manager s.
Proof.
  rewrite deliver_cases. destruct (_ && _); [done|].
  destruct (handler_slot name (manager s)); [|done]. by destruct (mapM _ _).
Qed.

Lemma perform_keeps_fixed_part (op : Op) (s : State Chain) :
  fixed_part (manager (perform op s)) = fixed_part (manager s).
Proof.
  destruct op as [name h|name log|n f|id|id|a|a|a|a how q|a]; simpl.
  - destruct (register_effect name h s) as (_ & _ & Hh & Hsp & Haddr & _).
    unfold fixed_part. by rewrite Hh, Hsp, Haddr.
  - by rewrite deliver_leaves_manager.
  - by rewrite discover_leaves_manager.
  - unfold AuctionManager.get_auction. run_node.
    by destruct (getAuctionInfo id (chain s)) as [[info|] c].
  - unfold get_auctionlet, try_except. run_node.
    destruct (getAuctionletInfo id (chain s)) as [[info|] c]; simpl; [|done].
    by destruct (Auctionlet.__init__ id info).
  - unfold is_expired, _is_auctionlet_expired, try_except. run_node.
    by destruct (isExpired _ (chain s)) as [[b|] c].
  - unfold get_auction, AuctionManager.get_auction.
    destruct (Auctionlet._auction a); [done|]. run_node.
    by destruct (getAuctionInfo _ (chain s)) as [[info|] c].
  - done.
  - by rewrite bid_leaves_manager.
  - by rewrite claim_leaves_manager.
Qed.

(** X12. Nothing the client does ever records a transaction hash: over
    any sequence of registrations, deliveries, lookups, discoveries, bids
    and claims, the set [_our_tx_hashes], the splitting flag and the
    address of the manager stay what they were.  On a manager made by
    [__init__] the set is therefore empty for ever, and the origin filter
    of the new-auction and bid notifications never drops an entry. *)
Theorem own_hashes_are_never_recorded (ops : list Op) (s : State Chain) :
  fixed_part (manager (run ops s)) = fixed_part (manager s)
  /\ (forall (c : Chain) (address : Address) (splitting : bool) (tr : list Event)
             (name : EventName) (log : Log),
        let fresh := mkState c (AuctionManager.__init__ address splitting) tr in
        _our_tx_hashes (manager (run ops fresh)) = ∅
        /\ deliver name log (run ops fresh)
           = match handler_slot name (manager (run ops fresh)) with
             | None => (Ok tt, run ops fresh)
             | Some handler =>
                 match mapM (fun key => args log !! key) (passed_keys name) with
                 | Some values =>
                     (Ok tt, mkState (chain (run ops fresh)) (manager (run ops fresh))
                               (trace (run ops fresh) ++ [EInvoke handler values]))
                 | None => (Raised, run ops fresh)
                 end
             end).
Proof.
  assert (Hrun : forall ops (s : State Chain),
            fixed_part (manager (run ops s)) = fixed_part (manager s)).
  { clear ops s. intros ops. unfold run.
    induction ops as [|op ops IH]; intros s; [done|].
    simpl. rewrite IH. apply perform_keeps_fixed_part. }
  split; [apply Hrun|].
  intros c addr sp tr name log fresh.
  assert (Hempty : _our_tx_hashes (manager (run ops fresh)) = ∅).
  { pose proof (Hrun ops fresh) as Hfix. unfold fixed_part in Hfix.
    by injection Hfix as _ _ ->. }
  split; [exact Hempty|].
  rewrite deliver_cases, Hempty.
  rewrite (bool_decide_eq_false_2 (transactionHash log ∈ ∅)) by set_solver.
  by rewrite andb_false_r.
Qed.

End Sessions.

Section Snapshots.
Context `{Env Chain}.

(** X13. A fetch of the parent auction that raises caches nothing: the
    exception leaves [get_auction], and the next call on the object asks
    the contract again and caches what it then gets. *)
Theorem failed_fetch_is_not_cached (this : Auctionlet.t) (s : State Chain)
    (auction_info : AuctionInfo) (c1 c2 : Chain) :
  Auctionlet._auction this = None ->
  getAuctionInfo (Auctionlet.auction_id this) (chain s) = (Raised, c1) ->
  getAuctionInfo (Auctionlet.auction_id this) c1 = (Ok auction_info, c2) ->
  let id := Auctionlet.auction_id this in
  let s1 := mkState c1 (manager s) (trace s ++ [ECall "getAuctionInfo" [id]]) in
  let a := Auction.__init__ id auction_info in
  get_auction this s = (Raised, s1)
  /\ get_auction this s1
     = (Ok (a, Auctionlet.set_auction this a),
        mkState c2 (manager s)
          (trace s ++ [ECall "getAuctionInfo" [id]; ECall "getAuctionInfo" [id]])).
Proof.
  intros Hempty Hfail Hok. simpl.
  unfold get_auction, AuctionManager.get_auction. rewrite Hempty. run_node.
  rewrite Hfail. simpl. rewrite Hok. simpl. by rewrite <- app_assoc.
Qed.

(** X14. Snapshots are identified by what was asked for: an [Auction]
    returned by [get_auction] carries the identifier that was passed in,
    an [Auctionlet] returned by [get_auctionlet] likewise, and so two
    snapshots fetched under one identifier compare equal even when the
    contract answered differently in between. *)
Theorem snapshots_of_one_identifier_are_equal (id : Z) :
  (forall (s1 s2 s1' s2' : State Chain) (a b : Auction.t),
     AuctionManager.get_auction id s1 = (Ok a, s1') ->
     AuctionManager.get_auction id s2 = (Ok b, s2') ->
     Auction.auction_id a = id /\ Auction.__eq__ a b = true)
  /\ (forall (t1 t2 t1' t2' : State Chain) (x y : Auctionlet.t),
        get_auctionlet id t1 = (Ok (Some x), t1') ->
        get_auctionlet id t2 = (Ok (Some y), t2') ->
        Auctionlet.auctionlet_id x = id /\ Auctionlet.__eq__ x y = true).
Proof.
  assert (Hid : forall s s' a, AuctionManager.get_auction id s = (Ok a, s') ->
                               Auction.auction_id a = id).
  { intros s s' a0. unfold AuctionManager.get_auction. run_node.
    destruct (getAuctionInfo id (chain s)) as [[info|] c]; simpl; [|discriminate].
    intros Heq. injection Heq as <- _.
    by destruct info as [[[[[[[[[? ?] ?] ?] ?] ?] ?] ?] ?] ?]. }
  assert (Hlet : forall s s' x, get_auctionlet id s = (Ok (Some x), s') ->
                                Auctionlet.auctionlet_id x = id).
  { intros s s' x. unfold get_auctionlet, try_except. run_node.
    destruct (getAuctionletInfo id (chain s)) as [[info|] c]; simpl; [|discriminate].
    destruct (Auctionlet.__init__ id info) as [x0|] eqn:Hinit; simpl; [|discriminate].
    intros Heq. injection Heq as <- _.
    unfold Auctionlet.__init__ in Hinit.
    destruct info as [[[[[[? ?] t] ?] ?] ?] ?].
    destruct (fromtimestamp t); [|discriminate]. by injection Hinit as <-. }
  split.
  - intros s1 s2 s1' s2' a b Ha Hb. split; [by eapply Hid|].
    unfold Auction.__eq__. apply bool_decide_eq_true.
    by rewrite (Hid _ _ _ Ha), (Hid _ _ _ Hb).
  - intros t1 t2 t1' t2' x y Hx Hy. split; [by eapply Hlet|].
    unfold Auctionlet.__eq__. apply bool_decide_eq_true.
    by rewrite (Hlet _ _ _ Hx), (Hlet _ _ _ Hy).
Qed.


(** One call of [is_expired]: a contract call, and an answer. *)
Lemma is_expired_step (this : Auctionlet.t) (s : State Chain) :
  let id := Auctionlet.auctionlet_id this in
  is_expired this s
  = (Ok (match fst (isExpired id (chain s)) with
         | Ok expired => Some expired
         | Raised => None
         end),
     mkState (snd (isExpired id (chain s))) (manager s)
       (trace s ++ [ECall "isExpired" [id]])).
Proof.
  simpl. unfold is_expired, _is_auctionlet_expired, try_except. run_node.
  by destruct (isExpired _ (chain s)) as [[b|] c].
Qed.


End Snapshots.

(** X17. Equality of auctionlets, and of auctions, is an equivalence
    (reflexive, symmetric, transitive), and filling the cache of an
    auctionlet does not change what it is equal to. *)
Theorem eq_is_an_equivalence (x y z : Auctionlet.t) (a b c : Auction.t) :
  Auctionlet.__eq__ x x = true
  /\ Auctionlet.__eq__ x y = Auctionlet.__eq__ y x
  /\ (Auctionlet.__eq__ x y && Auctionlet.__eq__ y z = true ->
      Auctionlet.__eq__ x z = true)
  /\ Auctionlet.__eq__ (Auctionlet.set_auction x a) y = Auctionlet.__eq__ x y
  /\ Auction.__eq__ a a = true
  /\ Auction.__eq__ a b = Auction.__eq__ b a
  /\ (Auction.__eq__ a b && Auction.__eq__ b c = true -> Auction.__eq__ a c = true).
Proof.
  unfold Auctionlet.__eq__, Auction.__eq__. repeat split.
  - by apply bool_decide_eq_true.
  - apply bool_decide_ext. split; by intros ->.
  - rewrite andb_true_iff, !bool_decide_eq_true. intros [-> ->]. done.
  - by apply bool_decide_eq_true.
  - apply bool_decide_ext. split; by intros ->.
  - rewrite andb_true_iff, !bool_decide_eq_true. intros [-> ->]. done.
Qed.

(** ** The further properties at work *)

Lemma bid_without_quantity_is_full_quantity_witness :
  bid TestNode.auctionlet7 (mkWad 5) None (TestNode.start true)
  = bid TestNode.auctionlet7 (mkWad 5) (Some (mkWad 100)) (TestNode.start true).
Proof.
  apply (bid_without_quantity_is_full_quantity TestNode.auctionlet7 (mkWad 5)
           (TestNode.start true)).
  reflexivity.
Defined.

Lemma unregistered_event_is_ignored_witness :
  deliver LogSplit FlakyNode.malformed_log (TestNode.start true)
  = (Ok tt, TestNode.start true).
Proof.
  apply unregistered_event_is_ignored. reflexivity.
Defined.


Lemma last_registration_wins_witness :
  let s' := snd (register LogBid "new" (snd (register LogBid "old" (TestNode.start true)))) in
  let after := snd (deliver LogBid (TestNode.bid_log "0x9" 7) s') in
  invocations "old" (trace after) = [] /\ invocations "new" (trace after) = [[7]].
Proof.
  apply (last_registration_wins LogBid "old" "new" (TestNode.bid_log "0x9" 7)
           (TestNode.start true) [7]).
  - discriminate.
  - simpl. set_solver.
  - reflexivity.
Defined.

Lemma registration_is_per_event_witness :
  let s := snd (register LogBid "keeper" (TestNode.start true)) in
  let s' := snd (register LogSplit "splitter" s) in
  fst (deliver LogBid (TestNode.bid_log "0x9" 7) s')
  = fst (deliver LogBid (TestNode.bid_log "0x9" 7) s)
  /\ trace (snd (deliver LogBid (TestNode.bid_log "0x9" 7) s'))
     = trace (snd (deliver LogBid (TestNode.bid_log "0x9" 7) s))
  /\ chain (snd (deliver LogBid (TestNode.bid_log "0x9" 7) s'))
     = chain (snd (deliver LogBid (TestNode.bid_log "0x9" 7) s)).
Proof.
  apply (registration_is_per_event LogSplit LogBid "splitter" (TestNode.bid_log "0x9" 7)
           (snd (register LogBid "keeper" (TestNode.start true)))).
  discriminate.
Defined.

Lemma failed_fetch_is_not_cached_witness :
  let info := ("0x01", "0x02", "0x03", 5, 1, 2, 1, 3600, false, false) in
  let a := Auction.__init__ 1 info in
  get_auction TestNode.auctionlet7 FlakyNode.start
  = (Raised, mkState 1%nat (manager FlakyNode.start) [ECall "getAuctionInfo" [1]])
  /\ get_auction TestNode.auctionlet7
       (mkState 1%nat (manager FlakyNode.start) [ECall "getAuctionInfo" [1]])
     = (Ok (a, Auctionlet.set_auction TestNode.auctionlet7 a),
        mkState 2%nat (manager FlakyNode.start)
          [ECall "getAuctionInfo" [1]; ECall "getAuctionInfo" [1]]).
Proof.
  apply (failed_fetch_is_not_cached TestNode.auctionlet7 FlakyNode.start
           ("0x01", "0x02", "0x03", 5, 1, 2, 1, 3600, false, false) 1%nat 2%nat);
    reflexivity.
Defined.

Lemma snapshots_of_one_identifier_are_equal_witness :
  let a := Auction.__init__ 1 ("0x01", "0x02", "0x03", 5, 1, 2, 1, 3600, false, false) in
  let b := Auction.__init__ 1 ("0x01", "0x02", "0x03", 5, 1, 2, 2, 3600, false, false) in
  let x := Auctionlet.mk None 7 8 (mkAddress "0x04") (mkDatetime 1500000000)
             (mkWad 10) (mkWad 100) true true in
  let y := Auctionlet.mk None 7 8 (mkAddress "0x04") (mkDatetime 1500000000)
             (mkWad 11) (mkWad 100) true true in
  (Auction.sell_amount a <> Auction.sell_amount b /\ Auction.__eq__ a b = true)
  /\ (Auctionlet.buy_amount x <> Auctionlet.buy_amount y /\ Auctionlet.__eq__ x y = true).
Proof.
  split; (split; [discriminate|]).
  - exact (proj2 (proj1 (snapshots_of_one_identifier_are_equal 1)
       (mkState 1%nat (manager FlakyNode.start) [])
       (mkState 2%nat (manager FlakyNode.start) [])
       (mkState 2%nat (manager FlakyNode.start) [ECall "getAuctionInfo" [1]])
       (mkState 3%nat (manager FlakyNode.start) [ECall "getAuctionInfo" [1]])
       (Auction.__init__ 1 ("0x01", "0x02", "0x03", 5, 1, 2, 1, 3600, false, false))
       (Auction.__init__ 1 ("0x01", "0x02", "0x03", 5, 1, 2, 2, 3600, false, false))
       eq_refl eq_refl)).
  - exact (proj2 (proj2 (snapshots_of_one_identifier_are_equal 7)
       FlakyNode.start
       (mkState 1%nat (manager FlakyNode.start) [])
       (mkState 1%nat (manager FlakyNode.start) [ECall "getAuctionletInfo" [7]])
       (mkState 2%nat (manager FlakyNode.start) [ECall "getAuctionletInfo" [7]])
       (Auctionlet.mk None 7 8 (mkAddress "0x04") (mkDatetime 1500000000)
          (mkWad 10) (mkWad 100) true true)
       (Auctionlet.mk None 7 8 (mkAddress "0x04") (mkDatetime 1500000000)
          (mkWad 11) (mkWad 100) true true)
       eq_refl eq_refl)).
Defined.


Lemma origin_filter_drops_known_hash_witness :
  deliver LogBid (TestNode.bid_log "0x0" 7) (mkState ([] : TestNode.Chain) knowing_manager [])
  = (Ok tt, mkState ([] : TestNode.Chain) knowing_manager []).
Proof.
  refine (proj1 (origin_filter_drops_known_hash LogBid (TestNode.bid_log "0x0" 7)
                   (mkState ([] : TestNode.Chain) knowing_manager []) eq_refl _)).
  simpl. set_solver.
Defined.

Lemma known_hash_still_reaches_split_and_reversal_witness :
  deliver LogSplit (mkLog "0x0" (args (TestNode.split_log 7 9 10)))
    (mkState ([] : TestNode.Chain) knowing_manager [])
  = (Ok tt, mkState ([] : TestNode.Chain) knowing_manager [EInvoke "on_split" [7; 9; 10]]).
Proof.
  apply (known_hash_still_reaches_split_and_reversal LogSplit
           (mkLog "0x0" (args (TestNode.split_log 7 9 10)))
           (mkState ([] : TestNode.Chain) knowing_manager []) "on_split" [7; 9; 10]).
  - by left.
  - simpl. set_solver.
  - reflexivity.
  - reflexivity.
Defined.
